(** * social-event: upload and event-time validators

    A shallow embedding of [src/utils/functions.js]: the default
    validation configuration, [extractFileMetadata],
    [validateFileCreationTime] and [validateEventTimes], followed by the
    properties established about them.

    Conventions of the embedding.
    - A JavaScript value that may be [undefined]/[null] is an [option].
    - A function that may [throw] returns a [result]; the rejection of the
      promise of an [async] function is a [Throw] as well.
    - The [metadata] object that the extractor mutates in place is threaded
      through the stages as an explicit state.
    - A [Date] is its time value: integer milliseconds since the epoch, or
      the invalid date.  The range limit of time values is not modelled.
    - Byte sizes and time values are integers ([Z]); the derived megabyte
      size, the size limit and the quality score are rationals ([Q]); the
      rounding of binary floating point is not modelled. *)

From Stdlib Require Import ZArith QArith Qround String Ascii List Lia.
From Stdlib Require Import DecimalString.
From stdpp Require Import base option list strings gmap.

Local Open Scope string_scope.
Local Open Scope Z_scope.

(** ** Values of the host language *)

(** A number that may be [NaN]. *)
Inductive Number (A : Type) : Type :=
| NaN : Number A
| Fin : A -> Number A.
Arguments NaN {A}.
Arguments Fin {A} _.

(** A [Date] object. *)
Inductive Date : Type :=
| InvalidDate : Date
| DateOf : Z -> Date.

(** What a function call produces: a value, or a thrown [Error] with its
    message. *)
Inductive result (A : Type) : Type :=
| Throw : string -> result A
| Return : A -> result A.
Arguments Throw {A} _.
Arguments Return {A} _.

Definition Buffer : Type := list Byte.byte.

(** ** Data model *)

Record ValidationConfig : Type := {
  maxFileSizeInMB : Q;
  minImageWidth : Z;
  minImageHeight : Z;
  timeBufferMinutes : Z;
  allowedMimeTypes : list string;
  requireOriginalPhoto : bool;
  minQualityScore : Q
}.

(** [DEFAULT_VALIDATION_CONFIG], functions.js lines 6-14. *)
Definition DEFAULT_VALIDATION_CONFIG : ValidationConfig := {|
  maxFileSizeInMB := 10;
  minImageWidth := 800;
  minImageHeight := 600;
  timeBufferMinutes := 60;
  allowedMimeTypes := ["image/jpeg"; "image/png"; "IMG_"; "image/heic"; "image/heif"];
  requireOriginalPhoto := false;
  minQualityScore := 0.5
|}.

(** A default parameter [config = DEFAULT_VALIDATION_CONFIG]: the default is
    taken when the argument is [undefined]. *)
Definition configOrDefault (config : option ValidationConfig) : ValidationConfig :=
  default DEFAULT_VALIDATION_CONFIG config.

(** The uploaded file as the extractor receives it; every property may be
    missing. *)
Record RawFile : Type := {
  file_name : option string;
  file_mimetype : option string;
  file_size : option Z;
  file_data : option Buffer;
  file_lastModifiedDate : option Date
}.

(** One tag of the embedded metadata, as the reader returns it. *)
Record Tag : Type := { description : string }.

Record FileMetadata : Type := {
  originalName : string;
  mimetype : string;
  size : Z;
  sizeInMB : Q;
  dimensions : option (Z * Z);
  qualityScore : option (Number Q);
  possibleCreationSources : list string;
  createdAt : option Date;
  cameraMake : option string;
  cameraModel : option string;
  iso : option string;
  validationErrors : list string;
  validationWarnings : list string
}.

(** ** Primitives of the host language used by the validators *)

(** [s.startsWith(p)]. *)
Definition startsWith (s p : string) : bool := String.prefix p s.

(** [l.includes(x)]. *)
Definition includes (l : list string) (x : string) : bool := bool_decide (x ∈ l).

(** [l.join(sep)]. *)
Definition join (sep : string) (l : list string) : string := String.concat sep l.

(** Truthiness of a string: every string but the empty one. *)
Definition truthy (s : string) : bool := negb (String.eqb s "").

(** An integer in a template literal. *)
Definition showZ (n : Z) : string := NilZero.string_of_int (Z.to_int n).

(** An array element read in a template literal: [undefined] prints as
    such. *)
Definition showOptional (s : option string) : string := default "undefined" s.

(** *** [parseInt] with no radix argument *)

(** The white space and line terminators of the ASCII range. *)
Definition isWhiteSpace (c : ascii) : bool :=
  let n := nat_of_ascii c in
  (n =? 32)%nat || (n =? 9)%nat || (n =? 10)%nat || (n =? 11)%nat
  || (n =? 12)%nat || (n =? 13)%nat.

Fixpoint skipWhiteSpace (s : string) : string :=
  match s with
  | String c rest => if isWhiteSpace c then skipWhiteSpace rest else s
  | EmptyString => s
  end.

(** The value of a character as a digit in the given radix. *)
Definition digitValue (radix : Z) (c : ascii) : option Z :=
  let n := Z.of_nat (nat_of_ascii c) in
  let v :=
    if (48 <=? n) && (n <=? 57) then Some (n - 48)
    else if (97 <=? n) && (n <=? 122) then Some (n - 87)
    else if (65 <=? n) && (n <=? 90) then Some (n - 55)
    else None in
  match v with
  | Some d => if d <? radix then Some d else None
  | None => None
  end.

(** The longest prefix of [s] made of digits, read in [radix]; [acc] is the
    value read so far, [NaN] while no digit has been seen. *)
Fixpoint readDigits (radix : Z) (s : string) (acc : Number Z) : Number Z :=
  match s with
  | String c rest =>
      match digitValue radix c with
      | Some d =>
          readDigits radix rest
            (Fin (match acc with NaN => d | Fin a => a * radix + d end))
      | None => acc
      end
  | EmptyString => acc
  end.

Definition parseInt (s : string) : Number Z :=
  let s := skipWhiteSpace s in
  let '(sign, s) :=
    match s with
    | String "-" rest => (-1, rest)
    | String "+" rest => (1, rest)
    | _ => (1, s)
    end in
  let '(radix, s) :=
    match s with
    | String "0" (String "x" rest) => (16, rest)
    | String "0" (String "X" rest) => (16, rest)
    | _ => (10, s)
    end in
  match readDigits radix s NaN with
  | NaN => NaN
  | Fin n => Fin (sign * n)
  end.

(** [n / 100] on a number that may be [NaN]. *)
Definition divideBy100 (n : Number Z) : Number Q :=
  match n with
  | NaN => NaN
  | Fin n => Fin (inject_Z n / 100)%Q
  end.

(** *** Dates *)

(** [new Date(d)] for a [Date] [d]: a copy with the same time value. *)
Definition copyDate (d : Date) : Date := d.

(** [d.getTime()]. *)
Definition getTime (d : Date) : Number Z :=
  match d with
  | InvalidDate => NaN
  | DateOf t => Fin t
  end.

(** [new Date(t)] for a number [t]. *)
Definition dateOfNumber (t : Number Z) : Date :=
  match t with
  | NaN => InvalidDate
  | Fin t => DateOf t
  end.

(** Relational operators on dates compare time values; a comparison with an
    invalid date is false. *)
Definition Date_lt (a b : Date) : bool :=
  match a, b with
  | DateOf x, DateOf y => x <? y
  | _, _ => false
  end.

Definition Date_le (a b : Date) : bool :=
  match a, b with
  | DateOf x, DateOf y => x <=? y
  | _, _ => false
  end.

Definition Date_ge (a b : Date) : bool := Date_le b a.

(** [a.getTime() === b.getTime()]: [NaN] is not equal to itself. *)
Definition sameTime (a b : Date) : bool :=
  match a, b with
  | DateOf x, DateOf y => x =? y
  | _, _ => false
  end.

(** Arithmetic on numbers that may be [NaN]. *)
Definition numOp (f : Z -> Z -> Z) (a b : Number Z) : Number Z :=
  match a, b with
  | Fin x, Fin y => Fin (f x y)
  | _, _ => NaN
  end.

(** [Math.floor((a - b) / d)] for dates [a], [b] and a positive integer
    [d]. *)
Definition floorDiff (a b : Date) (d : Z) : Number Z :=
  numOp (fun x y => (x - y) / d) (getTime a) (getTime b).

Definition msPerDay : Z := 86400000.

(** Day number of the first day of month [m] (0 to 11) of year [y]. *)
Definition dayFromYearMonth (y m : Z) : Z :=
  let y' := if m <? 2 then y - 1 else y in
  let era := y' / 400 in
  let yoe := y' - era * 400 in
  let mp := if m <? 2 then m + 10 else m - 2 in
  let doy := (153 * mp + 2) / 5 in
  let doe := yoe * 365 + yoe / 4 - yoe / 100 + doy in
  era * 146097 + doe - 719468.

(** [MakeDay(year, month, date)]: months outside 0..11 carry into the
    year, days outside the month carry into the next months. *)
Definition MakeDay (year month date : Z) : Z :=
  let ym := year + month / 12 in
  let mn := month mod 12 in
  dayFromYearMonth ym mn + date - 1.

(** [MakeTime(hour, min, 0, 0)]. *)
Definition MakeTime (hour min : Z) : Z := hour * 3600000 + min * 60000.

(** The civil date (year, month 0..11, day of month) of a day number. *)
Definition civilFromDay (day : Z) : Z * Z * Z :=
  let z := day + 719468 in
  let era := z / 146097 in
  let doe := z - era * 146097 in
  let yoe := (doe - doe / 1460 + doe / 36524 - doe / 146096) / 365 in
  let doy := doe - (365 * yoe + yoe / 4 - yoe / 100) in
  let mp := (5 * doy + 2) / 153 in
  let d := doy - (153 * mp + 2) / 5 + 1 in
  let m := if mp <? 10 then mp + 2 else mp - 10 in
  let y := yoe + era * 400 + (if m <? 2 then 1 else 0) in
  (y, m, d).

Definition getFullYear (t : Z) : Z := (civilFromDay (t / msPerDay)).1.1.
Definition getMonth (t : Z) : Z := (civilFromDay (t / msPerDay)).1.2.
Definition getDate (t : Z) : Z := (civilFromDay (t / msPerDay)).2.

(** [new Date(year, monthIndex, day, hours, minutes)].  A year from 0 to 99
    stands for 1900 + year.  The local time zone is taken to be a fixed
    offset, so that local instants compare like their time values; the
    offset is zero in this model. *)
Definition dateOfFields (year month day hours minutes : Number Z) : Date :=
  match year, month, day, hours, minutes with
  | Fin y, Fin m, Fin d, Fin h, Fin mi =>
      let yr := if (0 <=? y) && (y <=? 99) then 1900 + y else y in
      DateOf (MakeDay yr m d * msPerDay + MakeTime h mi)
  | _, _, _, _, _ => InvalidDate
  end.

(** [s.padStart(width, "0")]. *)
Definition padZeros (width : nat) (s : string) : string :=
  string_of_list_ascii (repeat "0"%char (width - String.length s)) +:+ s.

Definition showPadded (width : nat) (n : Z) : string := padZeros width (showZ n).

(** [d.toISOString()] on a time value. *)
Definition isoString (t : Z) : string :=
  let '(y, m, d) := civilFromDay (t / msPerDay) in
  let ms := t mod msPerDay in
  let year :=
    if (0 <=? y) && (y <=? 9999) then showPadded 4 y
    else if y <? 0 then "-" +:+ showPadded 6 (- y)
    else "+" +:+ showPadded 6 y in
  year +:+ "-" +:+ showPadded 2 (m + 1) +:+ "-" +:+ showPadded 2 d
  +:+ "T" +:+ showPadded 2 (ms / 3600000)
  +:+ ":" +:+ showPadded 2 (ms mod 3600000 / 60000)
  +:+ ":" +:+ showPadded 2 (ms mod 60000 / 1000)
  +:+ "." +:+ showPadded 3 (ms mod 1000) +:+ "Z".

(** [d.toISOString()]: throws on an invalid date. *)
Definition toISOString (d : Date) : result string :=
  match d with
  | InvalidDate => Throw "Invalid time value"
  | DateOf t => Return (isoString t)
  end.

(** ** Updates of the metadata object *)

Definition pushError (msg : string) (m : FileMetadata) : FileMetadata := {|
  originalName := originalName m; mimetype := mimetype m; size := size m;
  sizeInMB := sizeInMB m; dimensions := dimensions m;
  qualityScore := qualityScore m;
  possibleCreationSources := possibleCreationSources m;
  createdAt := createdAt m; cameraMake := cameraMake m;
  cameraModel := cameraModel m; iso := iso m;
  validationErrors := validationErrors m ++ [msg];
  validationWarnings := validationWarnings m
|}.

Definition pushWarning (msg : string) (m : FileMetadata) : FileMetadata := {|
  originalName := originalName m; mimetype := mimetype m; size := size m;
  sizeInMB := sizeInMB m; dimensions := dimensions m;
  qualityScore := qualityScore m;
  possibleCreationSources := possibleCreationSources m;
  createdAt := createdAt m; cameraMake := cameraMake m;
  cameraModel := cameraModel m; iso := iso m;
  validationErrors := validationErrors m;
  validationWarnings := validationWarnings m ++ [msg]
|}.

(** [metadata.createdAt = d; metadata.possibleCreationSources.push(source)]. *)
Definition setCreatedAt (d : Date) (source : string) (m : FileMetadata)
  : FileMetadata := {|
  originalName := originalName m; mimetype := mimetype m; size := size m;
  sizeInMB := sizeInMB m; dimensions := dimensions m;
  qualityScore := qualityScore m;
  possibleCreationSources := possibleCreationSources m ++ [source];
  createdAt := Some d; cameraMake := cameraMake m;
  cameraModel := cameraModel m; iso := iso m;
  validationErrors := validationErrors m;
  validationWarnings := validationWarnings m
|}.

Definition setQualityScore (q : Number Q) (m : FileMetadata) : FileMetadata := {|
  originalName := originalName m; mimetype := mimetype m; size := size m;
  sizeInMB := sizeInMB m; dimensions := dimensions m;
  qualityScore := Some q;
  possibleCreationSources := possibleCreationSources m;
  createdAt := createdAt m; cameraMake := cameraMake m;
  cameraModel := cameraModel m; iso := iso m;
  validationErrors := validationErrors m;
  validationWarnings := validationWarnings m
|}.

(** The three optional camera properties, each assigned when its tag is
    there. *)
Definition setCamera (make model isoTag : option Tag) (m : FileMetadata)
  : FileMetadata := {|
  originalName := originalName m; mimetype := mimetype m; size := size m;
  sizeInMB := sizeInMB m; dimensions := dimensions m;
  qualityScore := qualityScore m;
  possibleCreationSources := possibleCreationSources m;
  createdAt := createdAt m;
  cameraMake := match make with Some t => Some (description t) | None => cameraMake m end;
  cameraModel := match model with Some t => Some (description t) | None => cameraModel m end;
  iso := match isoTag with Some t => Some (description t) | None => iso m end;
  validationErrors := validationErrors m;
  validationWarnings := validationWarnings m
|}.

(** ** The metadata extractor *)

Definition noExifMessage : string := "No EXIF data found".
Definition cannotVerifyMessage : string :=
  "Could not verify original photo creation time. Please upload original photos directly from your camera/phone.".
Definition currentTimeMessage : string :=
  "Using current time as creation time - this may not reflect when the photo was actually taken".

Definition dateFields : list string :=
  ["DateTimeOriginal"; "CreateDate"; "ModifyDate"; "DateTime"].

Section Extractor.

(** The collaborators of the extractor: the embedded-metadata reader
    ([None] when it throws), the parser behind [new Date(string)] ([None]
    for an unparseable string), the clock, and the two renderings of a
    number spliced into the size message. *)
Variable ExifReader_load : Buffer -> option (gmap string Tag).
Variable Date_parse : string -> option Z.
Variable now : Z.
Variable toFixed2 : Q -> string.
Variable showNumber : Q -> string.

(** [new Date(s)] for a string [s]. *)
Definition dateOfString (s : string) : Date :=
  match Date_parse s with
  | Some t => DateOf t
  | None => InvalidDate
  end.

(** functions.js lines 25-36. *)
Definition initialMetadata (name mime : string) (sz : Z) : FileMetadata := {|
  originalName := name; mimetype := mime; size := sz;
  sizeInMB := (inject_Z sz / inject_Z (1024 * 1024))%Q;
  dimensions := None; qualityScore := None;
  possibleCreationSources := []; createdAt := None;
  cameraMake := None; cameraModel := None; iso := None;
  validationErrors := []; validationWarnings := []
|}.

(** The message of line 42. *)
Definition fileSizeMessage (config : ValidationConfig) (m : FileMetadata)
  : string :=
  "File size (" +:+ toFixed2 (sizeInMB m)
  +:+ "MB) exceeds maximum allowed size of "
  +:+ showNumber (maxFileSizeInMB config) +:+ "MB".

(** Lines 40-44. *)
Definition checkFileSize (config : ValidationConfig) (m : FileMetadata)
  : FileMetadata :=
  if negb (Qle_bool (sizeInMB m) (maxFileSizeInMB config)) then
    pushError (fileSizeMessage config m) m
  else m.

(** The message of line 49. *)
Definition fileTypeMessage (config : ValidationConfig) (m : FileMetadata)
  : string :=
  "File type " +:+ mimetype m +:+ " is not allowed. Allowed types: "
  +:+ join ", " (allowedMimeTypes config).

(** Lines 47-51. *)
Definition checkMimeType (config : ValidationConfig) (m : FileMetadata)
  : FileMetadata :=
  if negb (includes (allowedMimeTypes config) (mimetype m)) then
    pushError (fileTypeMessage config m) m
  else m.

(** Lines 88-90. *)
Definition readQuality (tags : gmap string Tag) (m : FileMetadata)
  : FileMetadata :=
  match tags !! "Quality" with
  | Some quality =>
      setQualityScore (divideBy100 (parseInt (description quality))) m
  | None => m
  end.

(** The loop of lines 80-94 over the remaining [fields]; the [break] is
    the branch that does not recurse. *)
Fixpoint searchDateFields (tags : gmap string Tag) (fields : list string)
  (m : FileMetadata) : FileMetadata :=
  match fields with
  | [] => m
  | field :: rest =>
      match tags !! field with
      | Some tag =>
          if truthy (description tag) then
            match dateOfString (description tag) with
            | DateOf t =>
                readQuality tags (setCreatedAt (DateOf t) "EXIF" m)
            | InvalidDate => searchDateFields tags rest m
            end
          else searchDateFields tags rest m
      | None => searchDateFields tags rest m
      end
  end.

(** Lines 69-103. *)
Definition readExif (data : Buffer) (m : FileMetadata) : FileMetadata :=
  if startsWith (mimetype m) "image/" then
    match ExifReader_load data with
    | Some tags =>
        let m := searchDateFields tags dateFields m in
        setCamera (tags !! "Make") (tags !! "Model") (tags !! "ISO") m
    | None => pushWarning noExifMessage m
    end
  else m.

(** Lines 106-109. *)
Definition tryLastModified (lastModified : option Date) (m : FileMetadata)
  : FileMetadata :=
  match createdAt m, lastModified with
  | None, Some d => setCreatedAt (copyDate d) "lastModifiedDate" m
  | _, _ => m
  end.

(** Lines 112-125. *)
Definition useCurrentTime (config : ValidationConfig) (m : FileMetadata)
  : FileMetadata :=
  match createdAt m with
  | None =>
      let m := setCreatedAt (DateOf now) "current" m in
      if requireOriginalPhoto config then
        pushError cannotVerifyMessage m
      else
        pushWarning currentTimeMessage m
  | Some _ => m
  end.

(** The guard of line 21: every required property is there and truthy. *)
Definition requiredProperties (file : RawFile)
  : option (string * string * Z * Buffer) :=
  match file_name file, file_mimetype file, file_size file, file_data file with
  | Some name, Some mime, Some sz, Some data =>
      if truthy name && truthy mime && negb (sz =? 0) then
        Some (name, mime, sz, data)
      else None
  | _, _, _, _ => None
  end.

(** The handler of lines 128-131: what the block threw is thrown again
    under a prefix. *)
Definition rethrow {A : Type} (block : result A) : result A :=
  match block with
  | Throw msg => Throw ("Failed to extract metadata: " +:+ msg)
  | Return x => Return x
  end.

(** [extractFileMetadata], lines 16-132.  The two guards are outside the
    [try] block.  Inside it, the only call that throws on values of these
    types is the reader's, which has a handler of its own at line 100, so
    the block always reaches its [return]. *)
Definition extractFileMetadata (file : option RawFile)
  (config : option ValidationConfig) : result FileMetadata :=
  let config := configOrDefault config in
  match file with
  | None => Throw "Missing required parameter - file"
  | Some file =>
      match requiredProperties file with
      | None => Throw "Invalid file object - missing required properties"
      | Some (name, mime, sz, data) =>
          let m := initialMetadata name mime sz in
          rethrow
            (let m := checkFileSize config m in
             let m := checkMimeType config m in
             let m := readExif data m in
             let m := tryLastModified (file_lastModifiedDate file) m in
             let m := useCurrentTime config m in
             Return m)
      end
  end.

End Extractor.

(** ** The error monad of throwing code *)

Global Instance result_ret : MRet result := fun _ x => Return x.
Global Instance result_bind : MBind result := fun _ _ f r =>
  match r with
  | Throw e => Throw e
  | Return x => f x
  end.

(** ** The creation-time validator *)

Module TimeValidation.

Record Details : Type := {
  fileCreatedAt : string;
  eventStart : string;
  eventEnd : string;
  creationSource : option string;
  timeOffset : option (Number Z);
  message : string
}.

Record Result : Type := {
  isValid : bool;
  createdAt : Date;
  details : Details
}.

End TimeValidation.

(** A number that may be [NaN], in a template literal. *)
Definition showNumberZ (n : Number Z) : string :=
  match n with
  | NaN => "NaN"
  | Fin n => showZ n
  end.

(** A value that may be [null], in a template literal. *)
Definition showNullable (n : option (Number Z)) : string :=
  match n with
  | None => "null"
  | Some n => showNumberZ n
  end.

(** [validateFileCreationTime], functions.js lines 134-167.  Reading
    [toISOString] off a [null] [createdAt] throws, as does [toISOString] on
    an invalid date; nothing before the [return] statement throws. *)
Definition validateFileCreationTime (fileMetadata : FileMetadata)
  (eventStart eventEnd : Date) (config : option ValidationConfig)
  : result TimeValidation.Result :=
  let config := configOrDefault config in
  match createdAt fileMetadata with
  | None => Throw "Cannot read properties of null (reading 'toISOString')"
  | Some createdAt =>
      let creationSource := head (possibleCreationSources fileMetadata) in
      let buffer := Fin (timeBufferMinutes config * 60 * 1000) in
      let bufferedEventStart :=
        dateOfNumber (numOp Z.sub (getTime eventStart) buffer) in
      let bufferedEventEnd :=
        dateOfNumber (numOp Z.add (getTime eventEnd) buffer) in
      let isValid :=
        Date_ge createdAt bufferedEventStart
        && Date_le createdAt bufferedEventEnd in
      let timeOffset :=
        if negb isValid then
          if Date_lt createdAt bufferedEventStart then
            Some (floorDiff bufferedEventStart createdAt (1000 * 60))
          else
            Some (floorDiff createdAt bufferedEventEnd (1000 * 60))
        else None in
      fileCreatedAt ← toISOString createdAt;
      eventStartISO ← toISOString eventStart;
      eventEndISO ← toISOString eventEnd;
      mret {|
        TimeValidation.isValid := isValid;
        TimeValidation.createdAt := createdAt;
        TimeValidation.details := {|
          TimeValidation.fileCreatedAt := fileCreatedAt;
          TimeValidation.eventStart := eventStartISO;
          TimeValidation.eventEnd := eventEndISO;
          TimeValidation.creationSource := creationSource;
          TimeValidation.timeOffset := timeOffset;
          TimeValidation.message :=
            if isValid then
              "File creation time is valid (detected via "
              +:+ showOptional creationSource +:+ ")"
            else
              "File was created " +:+ showNullable timeOffset +:+ " minutes "
              +:+ (if Date_lt createdAt bufferedEventStart
                   then "before" else "after")
              +:+ " the allowed time window"
        |}
      |}
  end.

(** ** The event time-range validator *)

(** [s.split(sep)] for a one-character separator. *)
Fixpoint split (sep : ascii) (s : string) : list string :=
  match s with
  | EmptyString => [""]
  | String c rest =>
      if Ascii.eqb c sep then "" :: split sep rest
      else
        match split sep rest with
        | piece :: pieces => String c piece :: pieces
        | [] => [String c ""]
        end
  end.

Definition isDigit (c : ascii) : bool :=
  let n := nat_of_ascii c in (48 <=? n)%nat && (n <=? 57)%nat.

Definition allDigits (s : string) : bool :=
  forallb isDigit (list_ascii_of_string s).

(** [Number(s)] on the strings a date or a time is made of: a run of
    decimal digits is its value and the empty string is zero.  The other
    numeric literals of the language (signs, fractions, exponents,
    surrounding blanks, other radixes) do not occur in [YYYY-MM-DD] and
    [HH:mm] inputs, and every other string is [NaN]. *)
Definition toNumber (s : string) : Number Z :=
  match s with
  | EmptyString => Fin 0
  | _ => if allDigits s then readDigits 10 s NaN else NaN
  end.

(** An element of a destructured array: [undefined], hence [NaN] in
    arithmetic, when the array is too short. *)
Definition element (l : list (Number Z)) (i : nat) : Number Z :=
  default NaN (l !! i).

(** [new Date(year, month - 1, day)] from a [YYYY-MM-DD] string, lines
    178-182. *)
Definition dateOnly (dateStr : string) : Date :=
  let parts := toNumber <$> split "-" dateStr in
  dateOfFields (element parts 0) (numOp Z.sub (element parts 1) (Fin 1))
    (element parts 2) (Fin 0) (Fin 0).

(** The helper of lines 171-175. *)
Definition combineDateAndTime (dateStr timeStr : string) : Date :=
  let parts := toNumber <$> split "-" dateStr in
  let clock := toNumber <$> split ":" timeStr in
  dateOfFields (element parts 0) (numOp Z.sub (element parts 1) (Fin 1))
    (element parts 2) (element clock 0) (element clock 1).

Module EventTimes.

Record Result : Type := {
  isValid : bool;
  errors : list string
}.

(** [validations.isValid = false; validations.errors.push(msg)]. *)
Definition fail (msg : string) (v : Result) : Result :=
  {| isValid := false; errors := errors v ++ [msg] |}.

End EventTimes.

Definition pastStartDate : string := "Start date cannot be in the past".
Definition endBeforeStart : string := "End date cannot be before start date".
Definition pastStartTime : string :=
  "Start time cannot be in the past for today's date. You can create 1 mins ahead of your current time if the event has started already!!".
Definition endTimeBeforeStartTime : string :=
  "End time cannot be before start time on the same day".

(** [todayDate] of lines 191-195, for the clock reading [now]. *)
Definition todayDate (now : Z) : Date :=
  dateOfFields (Fin (getFullYear now)) (Fin (getMonth now))
    (Fin (getDate now)) (Fin 0) (Fin 0).

(** [validateEventTimes], functions.js lines 169-230; [now] is the time
    value of [new Date()] at line 188. *)
Definition validateEventTimes (now : Z)
  (startDate endDate startTime endTime : string) : EventTimes.Result :=
  let start := dateOnly startDate in
  let end_ := dateOnly endDate in
  let startTimeObj := combineDateAndTime startDate startTime in
  let endTimeObj := combineDateAndTime endDate endTime in
  let todayDate := todayDate now in
  let validations :=
    {| EventTimes.isValid := true; EventTimes.errors := [] |} in
  let validations :=
    if Date_lt start todayDate
    then EventTimes.fail pastStartDate validations else validations in
  let validations :=
    if Date_lt end_ start
    then EventTimes.fail endBeforeStart validations else validations in
  let validations :=
    if sameTime start todayDate then
      if Date_lt startTimeObj (DateOf now)
      then EventTimes.fail pastStartTime validations else validations
    else validations in
  let validations :=
    if String.eqb startDate endDate && Date_lt endTimeObj startTimeObj
    then EventTimes.fail endTimeBeforeStartTime validations
    else validations in
  validations.

(** ** The upload controller

    The two handlers of the upload controller ([uploadFile] and
    [getAllUploads]).  The collection behind [uploadModel] is the sequence
    of the documents handed to [uploadModel.create]; the schema of the model
    is not part of these files, so what a stored document answers to
    [image.url] is a parameter.  A response is the status and the body given
    to [res.status(...).json(...)]. *)

Module Uploads.

(** An entry of [req.uploadedFiles], with the properties the handler
    reads. *)
Record File : Type := {
  originalname : option string;
  type : option string;
  cloudId : option string;
  size : option Z;
  name : option string
}.

(** [req.validatedEvent], with the properties the handler reads. *)
Record Event : Type := {
  _id : string;
  accessToken : string
}.

(** The object given to [uploadModel.create], lines 8-16. *)
Record Document : Type := {
  event : string;
  token : string;
  fileName : option string;
  fileType : option string;
  fileUrl : option string;
  fileSize : option Z;
  uploadedBy : option string
}.

Record Request : Type := {
  validatedEvent : option Event;
  uploadedFiles : option (list File)
}.

(** [page] of line 38: the query parameter, or the number 1. *)
Inductive Page : Type :=
| PageNumber : Z -> Page
| PageString : string -> Page.

Inductive Body : Type :=
| Message : string -> Body
| Photos : string -> list (Document * string) -> Page -> Z -> Body.

Record Response : Type := {
  status : Z;
  body : Body
}.

End Uploads.

Definition notIterableMessage : string := "uploadedFiles is not iterable".
Definition noEventMessage : string :=
  "Cannot read properties of undefined (reading '_id')".
Definition noLengthMessage : string :=
  "Cannot read properties of null (reading 'length')".
Definition noMapMessage : string :=
  "Cannot read properties of null (reading 'map')".

(** Lines 8-16: the document made of an event and a file. *)
Definition documentOf (ev : Uploads.Event) (file : Uploads.File)
  : Uploads.Document := {|
  Uploads.event := Uploads._id ev;
  Uploads.token := Uploads.accessToken ev;
  Uploads.fileName := Uploads.originalname file;
  Uploads.fileType := Uploads.type file;
  Uploads.fileUrl := Uploads.cloudId file;
  Uploads.fileSize := Uploads.size file;
  Uploads.uploadedBy := Uploads.name file
|}.

Section UploadController.

(** The database and the image host: the error with which
    [uploadModel.create] rejects a document, if it does, on a collection;
    the error with which [validatedEvent.save()] rejects, if it does; what
    the query of line 42 resolves to ([None] for [null]) or rejects with;
    the count of line 54; the [url] of a stored document; the address
    [cloudinary.url] makes of it; and the number a query string stands
    for. *)
Variable createError : list Uploads.Document -> Uploads.Document -> option string.
Variable saveError : Uploads.Event -> list Uploads.Document -> option string.
Variable find :
  string -> Number Q -> Z -> result (option (list Uploads.Document)).
Variable countDocuments : string -> result Z.
Variable documentUrl : Uploads.Document -> option string.
Variable cloudinary_url : option string -> string.
Variable stringToNumber : string -> Number Q.

(** The loop of lines 7-19 over the remaining [files]: the collection it
    leaves, and the message of the error that stopped it, if one did.
    Reading [validatedEvent._id] comes first in the object literal, so a
    missing event stops the loop before anything is created. *)
Fixpoint uploadEach (validatedEvent : option Uploads.Event)
  (files : list Uploads.File) (collection : list Uploads.Document)
  : list Uploads.Document * option string :=
  match files with
  | [] => (collection, None)
  | file :: rest =>
      match validatedEvent with
      | None => (collection, Some noEventMessage)
      | Some ev =>
          let upload := documentOf ev file in
          match createError collection upload with
          | Some msg => (collection, Some msg)
          | None =>
              let collection := (collection ++ [upload])%list in
              match saveError ev collection with
              | Some msg => (collection, Some msg)
              | None => uploadEach validatedEvent rest collection
              end
          end
      end
  end.

(** [uploadFile], lines 3-31: the collection it leaves and its response. *)
Definition uploadFile (req : Uploads.Request)
  (collection : list Uploads.Document)
  : list Uploads.Document * Uploads.Response :=
  let failed msg :=
    {| Uploads.status := 500;
       Uploads.body := Uploads.Message ("failed: " +:+ msg) |} in
  match Uploads.uploadedFiles req with
  | None => (collection, failed notIterableMessage)
  | Some files =>
      match uploadEach (Uploads.validatedEvent req) files collection with
      | (collection, None) =>
          (collection,
           {| Uploads.status := 200;
              Uploads.body := Uploads.Message "Upload Successfull" |})
      | (collection, Some msg) => (collection, failed msg)
      end
  end.

(** [(page - 1) * limit], line 40. *)
Definition skipOf (page : Uploads.Page) (limit : Z) : Number Q :=
  match page with
  | Uploads.PageNumber n => Fin (inject_Z ((n - 1) * limit))
  | Uploads.PageString s =>
      match stringToNumber s with
      | NaN => NaN
      | Fin q => Fin ((q - 1) * inject_Z limit)%Q
      end
  end.

(** [Math.ceil(count / limit)] for a positive [limit]. *)
Definition ceilDiv (count limit : Z) : Z := - ((- count) / limit).

(** [req.query.page || 1], line 38: an empty string is falsy. *)
Definition pageOf (queryPage : option string) : Uploads.Page :=
  match queryPage with
  | Some s => if truthy s then Uploads.PageString s else Uploads.PageNumber 1
  | None => Uploads.PageNumber 1
  end.

(** The [try] block of [getAllUploads], lines 36-61.  An array is truthy,
    so [images || images.length === 0] is the array itself and holds; on
    [null] the right operand is evaluated and reading [length] throws. *)
Definition getAllUploadsBlock (accessToken : string)
  (queryPage : option string) : result Uploads.Response :=
  let eventId := accessToken in
  let page := pageOf queryPage in
  let limit := 20 in
  let skip := skipOf page limit in
  images ← find eventId skip limit;
  noImages ← match images with
              | Some _ => Return true
              | None => Throw noLengthMessage
              end;
  if noImages : bool then
    mret {| Uploads.status := 404;
            Uploads.body := Uploads.Message "No images uploaded yet!!" |}
  else
    imagesWithUrl ← match images with
                    | Some l =>
                        Return
                          (List.map
                             (fun image =>
                                (image, cloudinary_url (documentUrl image)))
                             l)
                    | None => Throw noMapMessage
                    end;
    countPages ← countDocuments eventId;
    mret {| Uploads.status := 200;
            Uploads.body :=
              Uploads.Photos "All Photos Retrieved" imagesWithUrl page
                (ceilDiv countPages limit) |}.

(** [getAllUploads], lines 33-68: the handler of lines 63-67 answers 500
    with the message of what the block threw. *)
Definition getAllUploads (accessToken : string) (queryPage : option string)
  : Uploads.Response :=
  match getAllUploadsBlock accessToken queryPage with
  | Return response => response
  | Throw msg =>
      {| Uploads.status := 500; Uploads.body := Uploads.Message msg |}
  end.

End UploadController.

(** ** Notions used to state the properties *)

(** The required properties of a file that are missing or falsy: the
    inputs the guard of line 21 turns away. *)
Definition missingOrFalsy (file : RawFile) : Prop :=
  file_name file = None \/ file_name file = Some ""
  \/ file_mimetype file = None \/ file_mimetype file = Some ""
  \/ file_size file = None \/ file_size file = Some 0
  \/ file_data file = None.

(** The required properties of a file that are absent. *)
Definition missingProperty (file : RawFile) : Prop :=
  file_name file = None \/ file_mimetype file = None
  \/ file_size file = None \/ file_data file = None.

(** The time value a date field of the embedded metadata yields, if the
    field is there with a truthy description that parses. *)
Definition exifDate (Date_parse : string -> option Z)
  (tags : gmap string Tag) (field : string) : option Z :=
  match tags !! field with
  | Some tag => if truthy (description tag) then Date_parse (description tag) else None
  | None => None
  end.

(** The first of [fields] that yields a time value, with that value. *)
Fixpoint firstExifDate (Date_parse : string -> option Z)
  (tags : gmap string Tag) (fields : list string) : option (string * Z) :=
  match fields with
  | [] => None
  | field :: rest =>
      match exifDate Date_parse tags field with
      | Some t => Some (field, t)
      | None => firstExifDate Date_parse tags rest
      end
  end.

(** The format [YYYY-MM-DD]. *)
Definition wellFormedDate (s : string) : bool :=
  match split "-" s with
  | [y; m; d] =>
      (String.length y =? 4)%nat && allDigits y
      && (String.length m =? 2)%nat && allDigits m
      && (String.length d =? 2)%nat && allDigits d
  | _ => false
  end.

(** The format [HH:mm]. *)
Definition wellFormedTime (s : string) : bool :=
  match split ":" s with
  | [h; m] =>
      (String.length h =? 2)%nat && allDigits h
      && (String.length m =? 2)%nat && allDigits m
  | _ => false
  end.

(** The time value of [Date.UTC(year, month - 1, day, hours, minutes)], to
    write instants down. *)
Definition utc (year month day hours minutes : Z) : Z :=
  MakeDay year (month - 1) day * msPerDay + MakeTime hours minutes.

(** The time value the embedded metadata of a file yields: that of the
    first usable date field of a readable image. *)
Definition embeddedDate (ExifReader_load : Buffer -> option (gmap string Tag))
  (Date_parse : string -> option Z) (mime : string) (data : Buffer)
  : option Z :=
  if startsWith mime "image/" then
    match ExifReader_load data with
    | Some tags => snd <$> firstExifDate Date_parse tags dateFields
    | None => None
    end
  else None.

(** The file has neither an embedded date nor a last-modified date. *)
Definition fallsBackToClock
  (ExifReader_load : Buffer -> option (gmap string Tag))
  (Date_parse : string -> option Z) (file : RawFile) (mime : string)
  (data : Buffer) : bool :=
  match embeddedDate ExifReader_load Date_parse mime data,
        file_lastModifiedDate file with
  | None, None => true
  | _, _ => false
  end.

(** The file is an image whose embedded metadata the reader cannot read. *)
Definition exifUnreadable
  (ExifReader_load : Buffer -> option (gmap string Tag))
  (mime : string) (data : Buffer) : bool :=
  startsWith mime "image/"
  && match ExifReader_load data with Some _ => false | None => true end.

(** ** Sample inputs *)

(** A rendering of a rational with two decimals, rounding half up. *)
Definition showFixed2 (q : Q) : string :=
  let n := Qfloor (q * 100 + (1 # 2))%Q in
  showZ (n / 100) +:+ "." +:+ showPadded 2 (n mod 100).

(** A rendering of the whole part of a rational. *)
Definition showWhole (q : Q) : string := showZ (Qfloor q).

(** A parser that knows one timestamp. *)
Definition sampleParse (s : string) : option Z :=
  if String.eqb s "2024-06-01T10:00:00" then Some (utc 2024 6 1 10 0) else None.

Definition sampleNow : Z := utc 2024 6 1 12 0.

(** A reader that finds the given tags in every buffer. *)
Definition readerOf (tags : gmap string Tag) : Buffer -> option (gmap string Tag) :=
  fun _ => Some tags.

(** A reader that throws on every buffer. *)
Definition throwingReader : Buffer -> option (gmap string Tag) :=
  fun _ => None.

Definition tagOf (s : string) : Tag := {| description := s |}.

(** A photo whose original date does not parse and whose creation date
    does. *)
Definition photoTags : gmap string Tag :=
  {[ "DateTimeOriginal" := tagOf "2024:06:01 10:00:00";
     "CreateDate" := tagOf "2024-06-01T10:00:00";
     "Quality" := tagOf "85";
     "Make" := tagOf "Canon" ]}.

(** Metadata with a camera tag and no date. *)
Definition cameraOnlyTags : gmap string Tag :=
  {[ "Make" := tagOf "Canon" ]}.

(** Metadata with a quality tag and no date. *)
Definition qualityOnlyTags : gmap string Tag :=
  {[ "Quality" := tagOf "85" ]}.

Definition photo : RawFile := {|
  file_name := Some "IMG_0001.jpg";
  file_mimetype := Some "image/jpeg";
  file_size := Some 2048;
  file_data := Some [Byte.x01];
  file_lastModifiedDate := Some (DateOf (utc 2024 6 2 8 30))
|}.

(** The same photo with no last-modified date. *)
Definition bareUpload : RawFile := {|
  file_name := Some "IMG_0001.jpg";
  file_mimetype := Some "image/jpeg";
  file_size := Some 2048;
  file_data := Some [Byte.x01];
  file_lastModifiedDate := None
|}.

(** An upload of no bytes: every property is there, the size is zero. *)
Definition emptyUpload : RawFile := {|
  file_name := Some "IMG_0001.jpg";
  file_mimetype := Some "image/jpeg";
  file_size := Some 0;
  file_data := Some [];
  file_lastModifiedDate := None
|}.

(** A configuration that requires original photos. *)
Definition strictConfig : ValidationConfig := {|
  maxFileSizeInMB := 10;
  minImageWidth := 800;
  minImageHeight := 600;
  timeBufferMinutes := 60;
  allowedMimeTypes := ["image/jpeg"; "image/png"];
  requireOriginalPhoto := true;
  minQualityScore := 0.5
|}.

(** What the extractor returns for [photo] read with [photoTags]. *)
Definition photoMetadata : FileMetadata := {|
  originalName := "IMG_0001.jpg";
  mimetype := "image/jpeg";
  size := 2048;
  sizeInMB := (inject_Z 2048 / inject_Z (1024 * 1024))%Q;
  dimensions := None;
  qualityScore := Some (Fin (inject_Z 85 / 100)%Q);
  possibleCreationSources := ["EXIF"];
  createdAt := Some (DateOf (utc 2024 6 1 10 0));
  cameraMake := Some "Canon";
  cameraModel := None;
  iso := None;
  validationErrors := [];
  validationWarnings := []
|}.

(** Metadata of a file created at the given time of 1 June 2024. *)
Definition metadataAt (hours minutes : Z) : FileMetadata :=
  setCreatedAt (DateOf (utc 2024 6 1 hours minutes)) "EXIF"
    (initialMetadata "IMG_0001.jpg" "image/jpeg" 2048).

(** A document of twenty megabytes. *)
Definition pdfUpload : RawFile := {|
  file_name := Some "minutes.pdf";
  file_mimetype := Some "application/pdf";
  file_size := Some 20971520;
  file_data := Some [Byte.x01];
  file_lastModifiedDate := None
|}.

(** The photo with a last-modified date that is an invalid date. *)
Definition brokenDateUpload : RawFile := {|
  file_name := Some "IMG_0001.jpg";
  file_mimetype := Some "image/jpeg";
  file_size := Some 2048;
  file_data := Some [Byte.x01];
  file_lastModifiedDate := Some InvalidDate
|}.

(** The default configuration with other image limits, another quality
    threshold and a buffer of two hours. *)
Definition wideConfig : ValidationConfig := {|
  maxFileSizeInMB := 10;
  minImageWidth := 4000;
  minImageHeight := 3000;
  timeBufferMinutes := 120;
  allowedMimeTypes := ["image/jpeg"; "image/png"; "IMG_"; "image/heic"; "image/heif"];
  requireOriginalPhoto := false;
  minQualityScore := 0.9
|}.

(** Metadata of a file created at the given time value. *)
Definition metadataOf (t : Z) : FileMetadata :=
  setCreatedAt (DateOf t) "EXIF"
    (initialMetadata "IMG_0001.jpg" "image/jpeg" 2048).

Definition sampleEvent : Uploads.Event :=
  {| Uploads._id := "665af0"; Uploads.accessToken := "party" |}.

Definition sampleFile (n : string) : Uploads.File := {|
  Uploads.originalname := Some n;
  Uploads.type := Some "image/jpeg";
  Uploads.cloudId := Some ("uploads/" +:+ n);
  Uploads.size := Some 2048;
  Uploads.name := Some "ada"
|}.

(** A database that takes every document and fails to save the event once
    the collection holds two documents. *)
Definition acceptAll : list Uploads.Document -> Uploads.Document -> option string :=
  fun _ _ => None.
Definition saveFailsAtTwo : Uploads.Event -> list Uploads.Document -> option string :=
  fun _ collection =>
    if (length collection =? 2)%nat then Some "connection lost" else None.

(** The number a string of digits stands for. *)
Definition digitsToNumber (s : string) : Number Q :=
  match toNumber s with
  | NaN => NaN
  | Fin n => Fin (inject_Z n)
  end.

(** A query that resolves to one stored document, whatever is asked. *)
Definition findOne
  : string -> Number Q -> Z -> result (option (list Uploads.Document)) :=
  fun _ _ _ => Return (Some [documentOf sampleEvent (sampleFile "a.jpg")]).

(** * Properties *)

(** ** Strings and the metadata updates *)

Lemma truthy_true (s : string) : truthy s = true <-> s <> "".
Proof.
  unfold truthy. destruct (String.eqb_spec s ""); simpl; split; congruence.
Qed.

Lemma truthy_false (s : string) : truthy s = false <-> s = "".
Proof.
  unfold truthy. destruct (String.eqb_spec s ""); simpl; split; congruence.
Qed.

Lemma requiredProperties_Some file name mime sz data :
  requiredProperties file = Some (name, mime, sz, data) <->
  file_name file = Some name /\ file_mimetype file = Some mime
  /\ file_size file = Some sz /\ file_data file = Some data
  /\ name <> "" /\ mime <> "" /\ sz <> 0.
Proof.
  unfold requiredProperties.
  destruct (file_name file) as [n|], (file_mimetype file) as [mt|],
    (file_size file) as [z|], (file_data file) as [d|];
    try (split; [discriminate | intros (? & ? & ? & ? & _); discriminate]).
  destruct (truthy n) eqn:Hn, (truthy mt) eqn:Hmt, (Z.eqb_spec z 0); simpl;
    rewrite ?truthy_true, ?truthy_false in *;
    (split; [intros [= <- <- <- <-] || discriminate
            | intros ([= <-] & [= <-] & [= <-] & [= <-] & ? & ? & ?)]);
    try congruence; auto 10.
Qed.

Lemma requiredProperties_None file :
  requiredProperties file = None <-> missingOrFalsy file.
Proof.
  unfold requiredProperties, missingOrFalsy.
  destruct (file_name file) as [n|], (file_mimetype file) as [mt|],
    (file_size file) as [z|], (file_data file) as [d|];
    try (split; [intros _; auto 10 | reflexivity]).
  destruct (truthy n) eqn:Hn, (truthy mt) eqn:Hmt, (Z.eqb_spec z 0); simpl;
    rewrite ?truthy_true, ?truthy_false in *; subst;
    (split; [intros H; try discriminate H; auto 10 | intros H; try reflexivity]).
  all: destruct H as [H|[H|[H|[H|[H|[H|H]]]]]]; congruence.
Qed.

(** ** The metadata extractor *)

Section ExtractorProperties.

Variable ExifReader_load : Buffer -> option (gmap string Tag).
Variable Date_parse : string -> option Z.
Variable now : Z.
Variable toFixed2 : Q -> string.
Variable showNumber : Q -> string.

Local Abbreviation checked config name mime sz :=
  (checkMimeType config
     (checkFileSize toFixed2 showNumber config (initialMetadata name mime sz))).

(** The loop stops at the first field that yields a date. *)
Lemma searchDateFields_first tags fields m :
  searchDateFields Date_parse tags fields m =
  match firstExifDate Date_parse tags fields with
  | Some (_, t) => readQuality tags (setCreatedAt (DateOf t) "EXIF" m)
  | None => m
  end.
Proof.
  induction fields as [|field rest IH]; simpl; [reflexivity|].
  unfold exifDate, dateOfString.
  destruct (tags !! field) as [tag|]; [|exact IH].
  destruct (truthy (description tag)); [|exact IH].
  destruct (Date_parse (description tag)); [reflexivity|exact IH].
Qed.

Lemma firstExifDate_None tags fields :
  firstExifDate Date_parse tags fields = None <->
  forall field, field ∈ fields -> exifDate Date_parse tags field = None.
Proof.
  induction fields as [|f rest IH]; simpl.
  - split; [intros _ field Hin; inversion Hin | reflexivity].
  - destruct (exifDate Date_parse tags f) eqn:Hf.
    + split; [discriminate|]. intros H.
      specialize (H f (list_elem_of_here _ _)). congruence.
    + rewrite IH. split.
      * intros H field Hin. inversion Hin; subst; auto.
      * intros H field Hin. apply H. now apply list_elem_of_further.
Qed.

Lemma firstExifDate_app tags before field after t :
  (forall f, f ∈ before -> exifDate Date_parse tags f = None) ->
  exifDate Date_parse tags field = Some t ->
  firstExifDate Date_parse tags (before ++ field :: after) = Some (field, t).
Proof.
  intros Hbefore Hfield.
  induction before as [|f rest IH]; simpl.
  - now rewrite Hfield.
  - rewrite (Hbefore f (list_elem_of_here _ _)).
    apply IH. intros g Hg. apply Hbefore. now apply list_elem_of_further.
Qed.

(** What the stages leave in the fields the properties speak of. *)

Lemma checked_fresh config name mime sz :
  createdAt (checked config name mime sz) = None
  /\ possibleCreationSources (checked config name mime sz) = []
  /\ validationWarnings (checked config name mime sz) = []
  /\ qualityScore (checked config name mime sz) = None
  /\ mimetype (checked config name mime sz) = mime.
Proof.
  unfold checkMimeType, checkFileSize.
  destruct (negb (Qle_bool _ _)); simpl;
    destruct (negb (includes _ _)); simpl; auto.
Qed.

Lemma readQuality_keeps tags m :
  createdAt (readQuality tags m) = createdAt m
  /\ possibleCreationSources (readQuality tags m) = possibleCreationSources m
  /\ validationErrors (readQuality tags m) = validationErrors m
  /\ validationWarnings (readQuality tags m) = validationWarnings m.
Proof. unfold readQuality. destruct (tags !! "Quality"); simpl; auto. Qed.

(** The four outcomes of the embedded-metadata stage. *)
Lemma exifOutcome mime data :
  startsWith mime "image/" = false
  \/ (startsWith mime "image/" = true /\ ExifReader_load data = None)
  \/ (exists tags,
        startsWith mime "image/" = true /\ ExifReader_load data = Some tags
        /\ firstExifDate Date_parse tags dateFields = None)
  \/ (exists tags field t,
        startsWith mime "image/" = true /\ ExifReader_load data = Some tags
        /\ firstExifDate Date_parse tags dateFields = Some (field, t)).
Proof.
  destruct (startsWith mime "image/"); [|now left].
  destruct (ExifReader_load data) as [tags|]; [|now right; left].
  destruct (firstExifDate Date_parse tags dateFields) as [[field t]|] eqn:H.
  - right; right; right. now exists tags, field, t.
  - right; right; left. now exists tags.
Qed.

Lemma readExif_not_image data m :
  startsWith (mimetype m) "image/" = false ->
  readExif ExifReader_load Date_parse data m = m.
Proof. intros H. unfold readExif. now rewrite H. Qed.

Lemma readExif_threw data m :
  startsWith (mimetype m) "image/" = true ->
  ExifReader_load data = None ->
  readExif ExifReader_load Date_parse data m
  = pushWarning noExifMessage m.
Proof. intros H1 H2. unfold readExif. now rewrite H1, H2. Qed.

Lemma readExif_no_date data m tags :
  startsWith (mimetype m) "image/" = true ->
  ExifReader_load data = Some tags ->
  firstExifDate Date_parse tags dateFields = None ->
  readExif ExifReader_load Date_parse data m
  = setCamera (tags !! "Make") (tags !! "Model") (tags !! "ISO") m.
Proof.
  intros H1 H2 H3. unfold readExif.
  now rewrite H1, H2, searchDateFields_first, H3.
Qed.

Lemma readExif_date data m tags field t :
  startsWith (mimetype m) "image/" = true ->
  ExifReader_load data = Some tags ->
  firstExifDate Date_parse tags dateFields = Some (field, t) ->
  readExif ExifReader_load Date_parse data m
  = setCamera (tags !! "Make") (tags !! "Model") (tags !! "ISO")
      (readQuality tags (setCreatedAt (DateOf t) "EXIF" m)).
Proof.
  intros H1 H2 H3. unfold readExif.
  now rewrite H1, H2, searchDateFields_first, H3.
Qed.

(** Case analysis on the outcome of the embedded-metadata stage run on
    [m], rewriting the stage to what it does in each case. *)
Ltac exif_cases m data :=
  let H := fresh "Himage" in
  let Hload := fresh "Hload" in
  let Hfirst := fresh "Hfirst" in
  let tags := fresh "tags" in
  let field := fresh "field" in
  let t := fresh "t" in
  destruct (exifOutcome (mimetype m) data)
    as [H|[[H Hload]|[(tags & H & Hload & Hfirst)
                     |(tags & field & t & H & Hload & Hfirst)]]];
  [ rewrite (readExif_not_image data m H)
  | rewrite (readExif_threw data m H Hload)
  | rewrite (readExif_no_date data m tags H Hload Hfirst)
  | rewrite (readExif_date data m tags field t H Hload Hfirst) ];
  simpl in H.

(** Runs the stages after the two checks, in every case of the
    embedded-metadata stage, of the last-modified date and of
    [requireOriginalPhoto]. *)
Ltac run_stages file config :=
  match goal with
  | |- context [readExif _ _ ?data ?m] => exif_cases m data
  end;
  unfold useCurrentTime, tryLastModified, readQuality;
  try destruct (_ !! "Quality"); simpl;
  destruct (file_lastModifiedDate file); simpl;
  try destruct (requireOriginalPhoto config); simpl.

Lemma extract_unfold file config name mime sz data :
  requiredProperties file = Some (name, mime, sz, data) ->
  extractFileMetadata ExifReader_load Date_parse now toFixed2 showNumber
    (Some file) config
  = Return
      (useCurrentTime now (configOrDefault config)
         (tryLastModified (file_lastModifiedDate file)
            (readExif ExifReader_load Date_parse data
               (checked (configOrDefault config) name mime sz)))).
Proof. intros H. unfold extractFileMetadata. now rewrite H. Qed.

Lemma extract_Return file config m :
  extractFileMetadata ExifReader_load Date_parse now toFixed2 showNumber
    file config = Return m ->
  exists f name mime sz data,
    file = Some f /\ requiredProperties f = Some (name, mime, sz, data).
Proof.
  unfold extractFileMetadata. destruct file as [f|]; [|discriminate].
  destruct (requiredProperties f) as [[[[name mime] sz] data]|] eqn:H;
    [|discriminate].
  intros _. now exists f, name, mime, sz, data.
Qed.

(** The fields the later stages never touch, and the errors they only
    add to. *)
Lemma extract_frame file config name mime sz data m :
  requiredProperties file = Some (name, mime, sz, data) ->
  extractFileMetadata ExifReader_load Date_parse now toFixed2 showNumber
    (Some file) config = Return m ->
  originalName m = name /\ mimetype m = mime /\ size m = sz
  /\ sizeInMB m = (inject_Z sz / inject_Z (1024 * 1024))%Q
  /\ dimensions m = None
  /\ exists extra,
       validationErrors m
       = (validationErrors (checked (configOrDefault config) name mime sz)
          ++ extra)%list.
Proof.
  intros Hreq. rewrite (extract_unfold _ _ _ _ _ _ Hreq). intros [= <-].
  unfold checkMimeType, checkFileSize.
  destruct (negb (Qle_bool _ _)); destruct (negb (includes _ _));
    run_stages file (configOrDefault config);
    repeat split; auto;
    solve [eexists; symmetry; apply app_nil_r | eexists; reflexivity].
Qed.

Lemma firstExifDate_exists tags fields :
  (exists field t, field ∈ fields /\ exifDate Date_parse tags field = Some t) ->
  exists field t, firstExifDate Date_parse tags fields = Some (field, t).
Proof.
  intros (field & t & Hin & Hdate).
  destruct (firstExifDate Date_parse tags fields) as [[f u]|] eqn:H;
    [now exists f, u|].
  rewrite firstExifDate_None in H. rewrite (H field Hin) in Hdate.
  discriminate.
Qed.

Lemma checked_errors config name mime sz :
  let init := initialMetadata name mime sz in
  validationErrors (checked config name mime sz)
  = ((if negb (Qle_bool (sizeInMB init) (maxFileSizeInMB config))
      then [fileSizeMessage toFixed2 showNumber config init] else [])
     ++ (if negb (includes (allowedMimeTypes config) mime)
         then [fileTypeMessage config init] else []))%list.
Proof.
  unfold checkMimeType, checkFileSize. simpl.
  destruct (negb (Qle_bool _ _)); simpl;
    destruct (negb (includes _ _)); reflexivity.
Qed.

(** C2 (as amended).  [extractFileMetadata] throws exactly when the file
    argument is absent or one of its [name], [mimetype], [size] and [data]
    properties is absent or falsy (an empty name or type, a size of
    zero); on every other input it returns a [FileMetadata] that carries
    the file's name, type and size, with an over-size file and a type
    outside the allowed ones recorded as entries of [validationErrors]. *)
Theorem extractFileMetadata_input_error file config :
  ((exists msg,
      extractFileMetadata ExifReader_load Date_parse now toFixed2 showNumber
        file config = Throw msg)
   <-> (file = None \/ exists f, file = Some f /\ missingOrFalsy f))
  /\ ((exists m,
         extractFileMetadata ExifReader_load Date_parse now toFixed2 showNumber
           file config = Return m)
      <-> (exists f, file = Some f /\ ~ missingOrFalsy f))
  /\ (forall f m,
        file = Some f ->
        extractFileMetadata ExifReader_load Date_parse now toFixed2 showNumber
          file config = Return m ->
        let cfg := configOrDefault config in
        file_name f = Some (originalName m)
        /\ file_mimetype f = Some (mimetype m)
        /\ file_size f = Some (size m)
        /\ ((maxFileSizeInMB cfg < sizeInMB m)%Q ->
            fileSizeMessage toFixed2 showNumber cfg m ∈ validationErrors m)
        /\ (mimetype m ∉ allowedMimeTypes cfg ->
            fileTypeMessage cfg m ∈ validationErrors m)).
Proof.
  split; [|split].
  - unfold extractFileMetadata. destruct file as [f|].
    + destruct (requiredProperties f) as [[[[name mime] sz] data]|] eqn:H.
      * split; [intros [msg [=]]|].
        intros [[=]|(f' & [= <-] & Hf)].
        apply requiredProperties_None in Hf. congruence.
      * split; [|eauto]. intros _. right. exists f.
        split; [reflexivity | now apply requiredProperties_None].
    + split; eauto.
  - unfold extractFileMetadata. destruct file as [f|].
    + destruct (requiredProperties f) as [[[[name mime] sz] data]|] eqn:H.
      * split; [|eauto]. intros _. exists f. split; [reflexivity|].
        rewrite <- requiredProperties_None. congruence.
      * split; [intros [m [=]]|].
        intros (f' & [= <-] & Hf). exfalso. apply Hf.
        now apply requiredProperties_None.
    + split; [intros [m [=]] | intros (f & [=] & _)].
  - intros f m -> Hm cfg.
    destruct (extract_Return _ _ _ Hm)
      as (f' & name & mime & sz & data & [= <-] & Hreq).
    destruct (extract_frame _ _ _ _ _ _ _ Hreq Hm)
      as (Hname & Hmime & Hsize & HMB & _ & extra & Herr).
    apply requiredProperties_Some in Hreq.
    destruct Hreq as (Hn & Hmt & Hsz & _).
    rewrite Hname, Hmime, Hsize. repeat split; auto.
    + intros Hlt. rewrite Herr, checked_errors. fold cfg.
      assert (Hb : Qle_bool (sizeInMB (initialMetadata name mime sz))
                     (maxFileSizeInMB cfg) = false).
      { apply not_true_is_false. rewrite Qle_bool_iff. simpl.
        rewrite <- HMB. now apply Qlt_not_le. }
      rewrite Hb. simpl.
      replace (fileSizeMessage toFixed2 showNumber cfg m)
        with (fileSizeMessage toFixed2 showNumber cfg
                (initialMetadata name mime sz))
        by (unfold fileSizeMessage; simpl; now rewrite HMB).
      apply list_elem_of_here.
    + intros Hnot. rewrite Herr, checked_errors. fold cfg.
      assert (Hb : includes (allowedMimeTypes cfg) mime = false).
      { unfold includes. now apply bool_decide_eq_false. }
      rewrite Hb. simpl.
      replace (fileTypeMessage cfg m)
        with (fileTypeMessage cfg (initialMetadata name mime sz))
        by (unfold fileTypeMessage; simpl; now rewrite Hmime).
      rewrite !elem_of_app. left. right. apply list_elem_of_here.
Qed.

(** C3.  For an image file whose embedded metadata is readable, the date
    fields are searched in the order DateTimeOriginal, CreateDate,
    ModifyDate, DateTime: the first field that is present with a
    parseable description gives [createdAt], the only provenance tag is
    "EXIF", and neither a later field nor a fallback replaces the value.
    The empty string is no date for the parser of the host language. *)
Theorem extractFileMetadata_first_exif_date
  file config name mime sz data tags before field after tag t :
  Date_parse "" = None ->
  requiredProperties file = Some (name, mime, sz, data) ->
  startsWith mime "image/" = true ->
  ExifReader_load data = Some tags ->
  ["DateTimeOriginal"; "CreateDate"; "ModifyDate"; "DateTime"]
  = (before ++ field :: after)%list ->
  (forall f tag', f ∈ before -> tags !! f = Some tag' ->
                  Date_parse (description tag') = None) ->
  tags !! field = Some tag ->
  Date_parse (description tag) = Some t ->
  exists m,
    extractFileMetadata ExifReader_load Date_parse now toFixed2 showNumber
      (Some file) config = Return m
    /\ createdAt m = Some (DateOf t)
    /\ possibleCreationSources m = ["EXIF"].
Proof.
  intros Hempty Hreq Himg Hload Hfields Hbefore Htag Hparse.
  assert (Hfirst : firstExifDate Date_parse tags dateFields = Some (field, t)).
  { unfold dateFields. rewrite Hfields. apply firstExifDate_app.
    - intros f Hf. unfold exifDate.
      destruct (tags !! f) as [tag'|] eqn:Hf'; [|reflexivity].
      destruct (truthy (description tag')); [|reflexivity]. eauto.
    - unfold exifDate. rewrite Htag.
      destruct (truthy (description tag)) eqn:Htruthy; [assumption|].
      apply truthy_false in Htruthy. congruence. }
  eexists. split; [apply (extract_unfold _ _ _ _ _ _ Hreq)|].
  unfold checkMimeType, checkFileSize.
  destruct (negb (Qle_bool _ _)); destruct (negb (includes _ _));
    run_stages file (configOrDefault config);
    try congruence; simplify_eq; auto.
Qed.

(** C4 (as amended).  For an image file, when reading the embedded
    metadata throws, the no-EXIF-data warning is appended to
    [validationWarnings] and the extractor returns; when the reading
    succeeds, the extractor returns without that warning, whether or not
    a date field was usable. *)
Theorem extractFileMetadata_no_exif_warning file config name mime sz data :
  requiredProperties file = Some (name, mime, sz, data) ->
  startsWith mime "image/" = true ->
  exists m,
    extractFileMetadata ExifReader_load Date_parse now toFixed2 showNumber
      (Some file) config = Return m
    /\ (ExifReader_load data = None -> noExifMessage ∈ validationWarnings m)
    /\ (forall tags, ExifReader_load data = Some tags ->
                     noExifMessage ∉ validationWarnings m).
Proof.
  intros Hreq Himg.
  eexists. split; [apply (extract_unfold _ _ _ _ _ _ Hreq)|].
  unfold checkMimeType, checkFileSize.
  destruct (negb (Qle_bool _ _)); destruct (negb (includes _ _));
    run_stages file (configOrDefault config);
    try congruence; (split; [intros Hnone | intros tags' Hsome]);
    try congruence;
    rewrite ?elem_of_cons, ?elem_of_nil; auto;
    unfold noExifMessage, currentTimeMessage; intuition discriminate.
Qed.

(** C5 (as amended).  For an image file whose embedded metadata is
    readable and carries a quality tag: when one of the date fields is
    there with a non-empty parseable description, [qualityScore] is the
    integer read off the tag's description by [parseInt], divided by 100
    ([NaN] when no integer can be read); when no date field is usable,
    [qualityScore] stays null. *)
Theorem extractFileMetadata_qualityScore
  file config name mime sz data tags quality :
  requiredProperties file = Some (name, mime, sz, data) ->
  startsWith mime "image/" = true ->
  ExifReader_load data = Some tags ->
  tags !! "Quality" = Some quality ->
  exists m,
    extractFileMetadata ExifReader_load Date_parse now toFixed2 showNumber
      (Some file) config = Return m
    /\ ((exists field d,
           field ∈ dateFields /\ exifDate Date_parse tags field = Some d) ->
        qualityScore m
        = Some (divideBy100 (parseInt (description quality))))
    /\ ((forall field,
           field ∈ dateFields -> exifDate Date_parse tags field = None) ->
        qualityScore m = None).
Proof.
  intros Hreq Himg Hload Hquality.
  eexists. split; [apply (extract_unfold _ _ _ _ _ _ Hreq)|].
  unfold checkMimeType, checkFileSize.
  destruct (negb (Qle_bool _ _)); destruct (negb (includes _ _));
    (split; [intros Hsome; apply firstExifDate_exists in Hsome;
             destruct Hsome as (f0 & d0 & Hsome)
            |intros Hnone; apply firstExifDate_None in Hnone]);
    match goal with
    | |- context [readExif _ _ ?d ?m] => exif_cases m d
    end;
    try congruence; simplify_eq;
    unfold useCurrentTime, tryLastModified, readQuality;
    rewrite ?Hquality; simpl;
    destruct (file_lastModifiedDate file); simpl;
    try destruct (requireOriginalPhoto (configOrDefault config)); simpl;
    congruence.
Qed.

(** C6.  For a file whose embedded metadata gave no [createdAt] (it is
    not an image, or the reader threw, or no date field was usable): with
    a [lastModifiedDate], [createdAt] is that date and the provenance is
    ["lastModifiedDate"], nothing being added to the findings; with
    none, [createdAt] is the current time, the provenance is
    ["current"], and the finding added is an error when
    [requireOriginalPhoto] is set and a warning, with no error, when it
    is not. *)
Theorem extractFileMetadata_fallback file config name mime sz data :
  requiredProperties file = Some (name, mime, sz, data) ->
  (startsWith mime "image/" = false
   \/ ExifReader_load data = None
   \/ exists tags,
        ExifReader_load data = Some tags
        /\ forall field, field ∈ dateFields ->
                         exifDate Date_parse tags field = None) ->
  let cfg := configOrDefault config in
  let afterExif :=
    readExif ExifReader_load Date_parse data (checked cfg name mime sz) in
  exists m,
    extractFileMetadata ExifReader_load Date_parse now toFixed2 showNumber
      (Some file) config = Return m
    /\ match file_lastModifiedDate file with
       | Some d =>
           createdAt m = Some d
           /\ possibleCreationSources m = ["lastModifiedDate"]
           /\ validationErrors m = validationErrors (checked cfg name mime sz)
           /\ validationWarnings m = validationWarnings afterExif
       | None =>
           createdAt m = Some (DateOf now)
           /\ possibleCreationSources m = ["current"]
           /\ if requireOriginalPhoto cfg then
                validationErrors m
                = (validationErrors (checked cfg name mime sz)
                   ++ [cannotVerifyMessage])%list
                /\ validationWarnings m = validationWarnings afterExif
              else
                validationErrors m
                = validationErrors (checked cfg name mime sz)
                /\ validationWarnings m
                   = (validationWarnings afterExif
                      ++ [currentTimeMessage])%list
       end.
Proof.
  intros Hreq Hnone cfg afterExif.
  eexists. split; [apply (extract_unfold _ _ _ _ _ _ Hreq)|].
  subst afterExif. fold cfg.
  destruct (checked_fresh cfg name mime sz) as (Hc & Hs & _ & _ & Hm).
  assert (Hfirst : forall tags, ExifReader_load data = Some tags ->
            firstExifDate Date_parse tags dateFields <> None ->
            startsWith mime "image/" = false).
  { intros tags Hload Hsome.
    destruct Hnone as [?|[?|(tags' & Hload' & Hall)]];
      [assumption|congruence|].
    apply firstExifDate_None in Hall. congruence. }
  exif_cases (checked cfg name mime sz) data;
    try (rewrite Hm in *;
         specialize (Hfirst _ Hload ltac:(congruence)); congruence);
    unfold useCurrentTime, tryLastModified; simpl; rewrite ?Hc, ?Hs;
    destruct (file_lastModifiedDate file); simpl; rewrite ?Hc; simpl;
    try destruct (requireOriginalPhoto cfg); simpl; rewrite ?Hs; auto.
Qed.

(** C10.  A [FileMetadata] that [extractFileMetadata] returns has a
    non-null [createdAt] and exactly one provenance tag, which is "EXIF",
    "lastModifiedDate" or "current". *)
Theorem extractFileMetadata_one_creation_source file config m :
  extractFileMetadata ExifReader_load Date_parse now toFixed2 showNumber
    file config = Return m ->
  is_Some (createdAt m)
  /\ exists source,
       possibleCreationSources m = [source]
       /\ (source = "EXIF" \/ source = "lastModifiedDate"
           \/ source = "current").
Proof.
  intros Hm.
  destruct (extract_Return _ _ _ Hm)
    as (f & name & mime & sz & data & -> & Hreq).
  rewrite (extract_unfold _ _ _ _ _ _ Hreq) in Hm. injection Hm as <-.
  unfold checkMimeType, checkFileSize.
  destruct (negb (Qle_bool _ _)); destruct (negb (includes _ _));
    run_stages f (configOrDefault config); eauto 10.
Qed.

(** The camera make, model and ISO are copied from the embedded metadata
    of an image whenever it is readable, whether or not a date was
    found. *)
Theorem extractFileMetadata_camera_tags
  file config name mime sz data tags :
  requiredProperties file = Some (name, mime, sz, data) ->
  startsWith mime "image/" = true ->
  ExifReader_load data = Some tags ->
  exists m,
    extractFileMetadata ExifReader_load Date_parse now toFixed2 showNumber
      (Some file) config = Return m
    /\ cameraMake m = description <$> tags !! "Make"
    /\ cameraModel m = description <$> tags !! "Model"
    /\ iso m = description <$> tags !! "ISO".
Proof.
  intros Hreq Himg Hload.
  eexists. split; [apply (extract_unfold _ _ _ _ _ _ Hreq)|].
  unfold checkMimeType, checkFileSize.
  destruct (negb (Qle_bool _ _)); destruct (negb (includes _ _));
    run_stages file (configOrDefault config);
    try congruence; simplify_eq;
    destruct (_ !! "Make"), (_ !! "Model"), (_ !! "ISO"); auto.
Qed.

(** As [run_stages], for a goal that speaks of the embedded date: the
    notions on it are rewritten with the facts of each case. *)
Ltac run_stages_with_facts file config :=
  unfold fallsBackToClock, exifUnreadable, embeddedDate;
  match goal with
  | |- context [readExif _ _ ?data ?m] => exif_cases m data
  end;
  repeat match goal with
    | H : startsWith _ "image/" = _ |- _ => rewrite H
    | H : ExifReader_load _ = _ |- _ => rewrite H
    | H : firstExifDate _ _ _ = _ |- _ => rewrite H
    end;
  unfold useCurrentTime, tryLastModified, readQuality;
  try destruct (_ !! "Quality"); simpl;
  destruct (file_lastModifiedDate file); simpl;
  try destruct (requireOriginalPhoto config); simpl.

(** The errors of a returned [FileMetadata] are, in this order, the size
    error when the size in megabytes exceeds the limit, the type error when
    the type is not an allowed one, and the cannot-verify error when
    original photos are required and the file has neither an embedded date
    nor a last-modified date; so a file is free of errors exactly when none
    of the three conditions holds. *)
Theorem extractFileMetadata_errors file config name mime sz data :
  requiredProperties file = Some (name, mime, sz, data) ->
  exists m,
    extractFileMetadata ExifReader_load Date_parse now toFixed2 showNumber
      (Some file) config = Return m
    /\ validationErrors m
       = ((if negb (Qle_bool (sizeInMB m)
                      (maxFileSizeInMB (configOrDefault config)))
           then [fileSizeMessage toFixed2 showNumber
                   (configOrDefault config) m]
           else [])
          ++ (if negb (includes (allowedMimeTypes (configOrDefault config))
                         (mimetype m))
              then [fileTypeMessage (configOrDefault config) m] else [])
          ++ (if requireOriginalPhoto (configOrDefault config)
                 && fallsBackToClock ExifReader_load Date_parse file mime data
              then [cannotVerifyMessage] else []))%list
    /\ (validationErrors m = [] <->
        (sizeInMB m <= maxFileSizeInMB (configOrDefault config))%Q
        /\ mimetype m ∈ allowedMimeTypes (configOrDefault config)
        /\ (requireOriginalPhoto (configOrDefault config) = true ->
            fallsBackToClock ExifReader_load Date_parse file mime data
            = false)).
Proof.
  intros Hreq.
  eexists. split; [apply (extract_unfold _ _ _ _ _ _ Hreq)|].
  set (cfg := configOrDefault config).
  match goal with
  | |- ?errors = ?expected /\ _ =>
      assert (Herrors : errors = expected); [|split; [exact Herrors|]]
  end.
  - unfold checkMimeType, checkFileSize.
    destruct (negb (Qle_bool _ _)) eqn:Hsize;
      destruct (negb (includes _ _)) eqn:Htype;
      run_stages_with_facts file cfg;
      simpl in Hsize, Htype; rewrite ?Hsize, ?Htype; reflexivity.
  - rewrite Herrors. clear Herrors.
    match goal with
    | |- context [sizeInMB ?x] => set (m := x)
    end.
    rewrite <- Qle_bool_iff. unfold includes.
    destruct (Qle_bool (sizeInMB m) (maxFileSizeInMB cfg)); simpl;
      [|split; [discriminate | intros [[=] _]]].
    destruct (bool_decide_reflect (mimetype m ∈ allowedMimeTypes cfg));
      simpl; [|split; [discriminate | intros (_ & ? & _); contradiction]].
    destruct (requireOriginalPhoto cfg); simpl.
    + destruct (fallsBackToClock _ _ _ _ _); simpl;
        (split; [intros H; try discriminate H; auto
                |intros (_ & _ & H); try reflexivity;
                 specialize (H eq_refl); discriminate H]).
    + split; [intros _; repeat split; auto; discriminate | reflexivity].
Qed.

(** The warnings of a returned [FileMetadata] are, in this order, the
    no-EXIF-data warning when the file is an image the reader cannot read,
    and the current-time warning when the file has neither an embedded date
    nor a last-modified date and original photos are not required. *)
Theorem extractFileMetadata_warnings file config name mime sz data :
  requiredProperties file = Some (name, mime, sz, data) ->
  exists m,
    extractFileMetadata ExifReader_load Date_parse now toFixed2 showNumber
      (Some file) config = Return m
    /\ validationWarnings m
       = ((if exifUnreadable ExifReader_load mime data
           then [noExifMessage] else [])
          ++ (if negb (requireOriginalPhoto (configOrDefault config))
                 && fallsBackToClock ExifReader_load Date_parse file mime data
              then [currentTimeMessage] else []))%list.
Proof.
  intros Hreq.
  eexists. split; [apply (extract_unfold _ _ _ _ _ _ Hreq)|].
  unfold checkMimeType, checkFileSize.
  destruct (negb (Qle_bool _ _)); destruct (negb (includes _ _));
    run_stages_with_facts file (configOrDefault config); reflexivity.
Qed.

(** For a file whose type does not begin with image/, the reader and the
    date parser are never consulted: the result is the same whatever they
    are, with no quality score, no camera properties and no no-EXIF-data
    warning. *)
Theorem extractFileMetadata_non_image
  file config name mime sz data otherReader otherParse :
  requiredProperties file = Some (name, mime, sz, data) ->
  startsWith mime "image/" = false ->
  exists m,
    extractFileMetadata ExifReader_load Date_parse now toFixed2 showNumber
      (Some file) config = Return m
    /\ extractFileMetadata otherReader otherParse now toFixed2 showNumber
         (Some file) config = Return m
    /\ qualityScore m = None
    /\ cameraMake m = None /\ cameraModel m = None /\ iso m = None
    /\ noExifMessage ∉ validationWarnings m.
Proof.
  intros Hreq Himg.
  eexists. split; [apply (extract_unfold _ _ _ _ _ _ Hreq)|].
  unfold extractFileMetadata. rewrite Hreq. simpl.
  unfold checkMimeType, checkFileSize.
  destruct (negb (Qle_bool _ _)); destruct (negb (includes _ _));
    unfold readExif; simpl; rewrite !Himg;
    unfold useCurrentTime, tryLastModified; simpl;
    destruct (file_lastModifiedDate file); simpl;
    try destruct (requireOriginalPhoto (configOrDefault config)); simpl;
    repeat split; auto;
    rewrite ?elem_of_nil, ?list_elem_of_singleton; try tauto;
    unfold noExifMessage, currentTimeMessage; discriminate.
Qed.

(** The limits [minImageWidth], [minImageHeight] and [minQualityScore] and
    the buffer [timeBufferMinutes] are not enforced by the extractor: two
    configurations that agree on the size limit, on the allowed types and on
    [requireOriginalPhoto] give the same result, and no returned
    [FileMetadata] has dimensions. *)
Theorem extractFileMetadata_unenforced_limits file config1 config2 :
  maxFileSizeInMB config1 = maxFileSizeInMB config2 ->
  allowedMimeTypes config1 = allowedMimeTypes config2 ->
  requireOriginalPhoto config1 = requireOriginalPhoto config2 ->
  extractFileMetadata ExifReader_load Date_parse now toFixed2 showNumber
    file (Some config1)
  = extractFileMetadata ExifReader_load Date_parse now toFixed2 showNumber
      file (Some config2)
  /\ (forall m,
        extractFileMetadata ExifReader_load Date_parse now toFixed2 showNumber
          file (Some config1) = Return m ->
        dimensions m = None).
Proof.
  intros Hsize Htypes Hrequire. split.
  - unfold extractFileMetadata, configOrDefault. simpl.
    destruct file as [f|]; [|reflexivity].
    destruct (requiredProperties f) as [[[[name mime] sz] data]|];
      [|reflexivity].
    unfold checkFileSize, checkMimeType, fileSizeMessage, fileTypeMessage,
      useCurrentTime.
    now rewrite Hsize, Htypes, Hrequire.
  - intros m Hm.
    destruct (extract_Return _ _ _ Hm)
      as (f & name & mime & sz & data & -> & Hreq).
    now destruct (extract_frame _ _ _ _ _ _ _ Hreq Hm) as (_ & _ & _ & _ & H & _).
Qed.

(** The creation-time validator never throws on what the extractor
    returns, provided the last-modified date of the file, if there is one,
    is a valid date: [createdAt] is a valid date, it is the [createdAt] of
    the verdict, and the [creationSource] of the details is the one
    provenance tag of the metadata. *)
Theorem validateFileCreationTime_after_extract
  file config m eventStart eventEnd config' :
  extractFileMetadata ExifReader_load Date_parse now toFixed2 showNumber
    file config = Return m ->
  (forall f, file = Some f -> file_lastModifiedDate f <> Some InvalidDate) ->
  exists r created source,
    validateFileCreationTime m (DateOf eventStart) (DateOf eventEnd) config'
    = Return r
    /\ createdAt m = Some (DateOf created)
    /\ TimeValidation.createdAt r = DateOf created
    /\ possibleCreationSources m = [source]
    /\ TimeValidation.creationSource (TimeValidation.details r) = Some source.
Proof.
  intros Hm Hvalid.
  destruct (extract_Return _ _ _ Hm)
    as (f & name & mime & sz & data & -> & Hreq).
  specialize (Hvalid f eq_refl).
  rewrite (extract_unfold _ _ _ _ _ _ Hreq) in Hm. injection Hm as <-.
  unfold validateFileCreationTime, checkMimeType, checkFileSize.
  destruct (negb (Qle_bool _ _)); destruct (negb (includes _ _));
    run_stages f (configOrDefault config);
    try match goal with
      | d : Date |- _ => destruct d as [|lastModified]; [congruence|]
      end;
    simpl; eauto 10.
Qed.

(** A file with neither an embedded date nor a last-modified date is
    dated by the clock of the extractor, so the creation-time validator
    finds it valid exactly when that clock reading lies in the buffered
    window of the event. *)
Theorem validateFileCreationTime_of_clock_fallback
  file config name mime sz data eventStart eventEnd config' :
  requiredProperties file = Some (name, mime, sz, data) ->
  fallsBackToClock ExifReader_load Date_parse file mime data = true ->
  let buffer := timeBufferMinutes (configOrDefault config') * 60 * 1000 in
  exists m r,
    extractFileMetadata ExifReader_load Date_parse now toFixed2 showNumber
      (Some file) config = Return m
    /\ validateFileCreationTime m (DateOf eventStart) (DateOf eventEnd)
         config' = Return r
    /\ TimeValidation.creationSource (TimeValidation.details r)
       = Some "current"
    /\ (TimeValidation.isValid r = true <->
        eventStart - buffer <= now <= eventEnd + buffer).
Proof.
  intros Hreq Hclock buffer.
  eexists. eexists. split; [apply (extract_unfold _ _ _ _ _ _ Hreq)|].
  revert Hclock. unfold validateFileCreationTime, checkMimeType, checkFileSize.
  destruct (negb (Qle_bool _ _)); destruct (negb (includes _ _));
    run_stages_with_facts file (configOrDefault config);
    try discriminate; intros _;
    (split; [reflexivity|]); simpl; (split; [reflexivity|]);
    fold buffer; rewrite andb_true_iff, !Z.leb_le; reflexivity.
Qed.

(** A last-modified date that is an invalid date is taken as [createdAt]
    all the same when the embedded metadata gives no date: the extractor
    returns it under the provenance "lastModifiedDate", and the
    creation-time validator throws on that metadata for every event. *)
Theorem validateFileCreationTime_of_invalid_lastModified
  file config name mime sz data :
  requiredProperties file = Some (name, mime, sz, data) ->
  embeddedDate ExifReader_load Date_parse mime data = None ->
  file_lastModifiedDate file = Some InvalidDate ->
  exists m,
    extractFileMetadata ExifReader_load Date_parse now toFixed2 showNumber
      (Some file) config = Return m
    /\ createdAt m = Some InvalidDate
    /\ possibleCreationSources m = ["lastModifiedDate"]
    /\ forall eventStart eventEnd config',
         exists msg,
           validateFileCreationTime m eventStart eventEnd config'
           = Throw msg.
Proof.
  intros Hreq Hnone Hinvalid.
  eexists. split; [apply (extract_unfold _ _ _ _ _ _ Hreq)|].
  revert Hnone. unfold validateFileCreationTime, checkMimeType, checkFileSize.
  destruct (negb (Qle_bool _ _)); destruct (negb (includes _ _));
    unfold embeddedDate;
    match goal with
    | |- context [readExif _ _ ?d ?m] => exif_cases m d
    end;
    repeat match goal with
      | H : startsWith _ "image/" = _ |- _ => rewrite H
      | H : ExifReader_load _ = _ |- _ => rewrite H
      | H : firstExifDate _ _ _ = _ |- _ => rewrite H
      end;
    try discriminate; intros _;
    unfold useCurrentTime, tryLastModified; rewrite Hinvalid; simpl;
    repeat split; eauto.
Qed.

End ExtractorProperties.

(** ** The default configuration *)

(** C1 (as amended).  With no [ValidationConfig] supplied, both validators
    that take one run under [DEFAULT_VALIDATION_CONFIG], whose values are
    maxFileSizeInMB 10, minImageWidth 800, minImageHeight 600,
    timeBufferMinutes 60, requireOriginalPhoto false, minQualityScore 0.5,
    and whose allowedMimeTypes are the five entries image/jpeg, image/png,
    IMG_, image/heic and image/heif. *)
Theorem DEFAULT_VALIDATION_CONFIG_applies :
  maxFileSizeInMB DEFAULT_VALIDATION_CONFIG = 10%Q
  /\ minImageWidth DEFAULT_VALIDATION_CONFIG = 800
  /\ minImageHeight DEFAULT_VALIDATION_CONFIG = 600
  /\ timeBufferMinutes DEFAULT_VALIDATION_CONFIG = 60
  /\ allowedMimeTypes DEFAULT_VALIDATION_CONFIG
     = ["image/jpeg"; "image/png"; "IMG_"; "image/heic"; "image/heif"]
  /\ (list_to_set (allowedMimeTypes DEFAULT_VALIDATION_CONFIG) : gset string)
     = {["image/jpeg"; "image/png"; "IMG_"; "image/heic"; "image/heif"]}
  /\ requireOriginalPhoto DEFAULT_VALIDATION_CONFIG = false
  /\ minQualityScore DEFAULT_VALIDATION_CONFIG = 0.5%Q
  /\ (forall load parse now toFixed2 showNumber file,
        extractFileMetadata load parse now toFixed2 showNumber file None
        = extractFileMetadata load parse now toFixed2 showNumber file
            (Some DEFAULT_VALIDATION_CONFIG))
  /\ (forall metadata eventStart eventEnd,
        validateFileCreationTime metadata eventStart eventEnd None
        = validateFileCreationTime metadata eventStart eventEnd
            (Some DEFAULT_VALIDATION_CONFIG)).
Proof.
  repeat split; reflexivity.
Qed.

(** ** The creation-time validator *)

(** C7.  For a metadata whose [createdAt] is a date and an event window of
    two dates, [validateFileCreationTime] returns, and [isValid] holds
    exactly when [createdAt] lies in the closed interval from [eventStart]
    minus the buffer to [eventEnd] plus the buffer, the buffer being
    [timeBufferMinutes] minutes. *)
Theorem validateFileCreationTime_isValid
  metadata created eventStart eventEnd config :
  createdAt metadata = Some (DateOf created) ->
  let buffer := timeBufferMinutes (configOrDefault config) * 60 * 1000 in
  exists r,
    validateFileCreationTime metadata (DateOf eventStart) (DateOf eventEnd)
      config = Return r
    /\ (TimeValidation.isValid r = true <->
        eventStart - buffer <= created <= eventEnd + buffer).
Proof.
  intros Hcreated buffer. unfold validateFileCreationTime.
  rewrite Hcreated. simpl. eexists. split; [reflexivity|]. simpl.
  fold buffer. rewrite andb_true_iff, !Z.leb_le. reflexivity.
Qed.

(** C8.  When the verdict is invalid, [timeOffset] is the number of whole
    minutes, rounded down and never negative, from [createdAt] to the bound
    of the buffered window it lies outside of, and the message states that
    number with "before" for the lower bound and "after" for the upper one;
    when the verdict is valid there is no [timeOffset]. *)
Theorem validateFileCreationTime_timeOffset
  metadata created eventStart eventEnd config :
  createdAt metadata = Some (DateOf created) ->
  let buffer := timeBufferMinutes (configOrDefault config) * 60 * 1000 in
  let lower := eventStart - buffer in
  let upper := eventEnd + buffer in
  exists r,
    validateFileCreationTime metadata (DateOf eventStart) (DateOf eventEnd)
      config = Return r
    /\ (TimeValidation.isValid r = true ->
        TimeValidation.timeOffset (TimeValidation.details r) = None)
    /\ (TimeValidation.isValid r = false ->
        (created < lower
         /\ 0 <= (lower - created) / 60000
         /\ TimeValidation.timeOffset (TimeValidation.details r)
            = Some (Fin ((lower - created) / 60000))
         /\ TimeValidation.message (TimeValidation.details r)
            = "File was created " +:+ showZ ((lower - created) / 60000)
              +:+ " minutes before the allowed time window")
        \/ (lower <= created /\ upper < created
            /\ 0 <= (created - upper) / 60000
            /\ TimeValidation.timeOffset (TimeValidation.details r)
               = Some (Fin ((created - upper) / 60000))
            /\ TimeValidation.message (TimeValidation.details r)
               = "File was created " +:+ showZ ((created - upper) / 60000)
                 +:+ " minutes after the allowed time window")).
Proof.
  intros Hcreated buffer lower upper. unfold validateFileCreationTime.
  rewrite Hcreated. simpl. eexists. split; [reflexivity|]. simpl.
  fold buffer. fold lower. fold upper.
  destruct (Z.leb_spec lower created) as [Hlo|Hlo];
    destruct (Z.leb_spec created upper) as [Hup|Hup]; simpl;
    (split; [intros; (reflexivity || discriminate)|]); intros Hinvalid;
    try discriminate.
  - right. destruct (Z.ltb_spec created lower); [lia|].
    repeat split; auto. apply Z.div_pos; lia.
  - left. destruct (Z.ltb_spec created lower); [|lia].
    repeat split; auto. apply Z.div_pos; lia.
  - left. destruct (Z.ltb_spec created lower); [|lia].
    repeat split; auto. apply Z.div_pos; lia.
Qed.

(** [validateFileCreationTime] returns exactly when [createdAt] and the two
    bounds of the event are valid dates; on a null [createdAt] or an
    invalid date it throws. *)
Theorem validateFileCreationTime_returns
  metadata eventStart eventEnd config :
  (exists r,
     validateFileCreationTime metadata eventStart eventEnd config = Return r)
  <-> (exists created start end_,
         createdAt metadata = Some (DateOf created)
         /\ eventStart = DateOf start /\ eventEnd = DateOf end_).
Proof.
  unfold validateFileCreationTime. split.
  - destruct (createdAt metadata) as [[|created]|]; simpl;
      [intros [r [=]] | | intros [r [=]]].
    destruct eventStart as [|start]; simpl; [intros [r [=]]|].
    destruct eventEnd as [|end_]; simpl; [intros [r [=]]|].
    intros _. now exists created, start, end_.
  - intros (created & start & end_ & -> & -> & ->). simpl. eauto.
Qed.

(** A valid verdict carries the success message, which names the first
    provenance tag of the metadata, and that tag is the [creationSource]
    of the details in every verdict. *)
Theorem validateFileCreationTime_success_message
  metadata eventStart eventEnd config r :
  validateFileCreationTime metadata eventStart eventEnd config = Return r ->
  TimeValidation.creationSource (TimeValidation.details r)
  = head (possibleCreationSources metadata)
  /\ (TimeValidation.isValid r = true ->
      TimeValidation.message (TimeValidation.details r)
      = "File creation time is valid (detected via "
        +:+ showOptional (head (possibleCreationSources metadata)) +:+ ")").
Proof.
  unfold validateFileCreationTime.
  destruct (createdAt metadata) as [[|created]|]; simpl; try discriminate.
  destruct eventStart as [|start]; simpl; try discriminate.
  destruct eventEnd as [|end_]; simpl; try discriminate.
  intros [= <-]. simpl. split; [reflexivity|].
  intros ->. reflexivity.
Qed.

(** ** The event time-range validator *)

Lemma digitValue_digit (c : ascii) :
  isDigit c = true -> exists d, digitValue 10 c = Some d.
Proof.
  destruct c as [[] [] [] [] [] [] [] []]; try discriminate; intros _;
    eexists; reflexivity.
Qed.

Lemma readDigits_digits (s : string) (a : Z) :
  allDigits s = true -> exists n, readDigits 10 s (Fin a) = Fin n.
Proof.
  revert a. induction s as [|c s IH]; intros a; simpl.
  - eauto.
  - unfold allDigits. simpl. rewrite andb_true_iff. intros [Hc Hs].
    destruct (digitValue_digit c Hc) as [d ->]. now apply IH.
Qed.

Lemma toNumber_digits (s : string) :
  allDigits s = true -> exists n, toNumber s = Fin n.
Proof.
  intros Hs. unfold toNumber. destruct s as [|c s]; [eauto|].
  rewrite Hs. revert Hs. unfold allDigits. simpl.
  rewrite andb_true_iff. intros [Hc Hs].
  destruct (digitValue_digit c Hc) as [d ->]. now apply readDigits_digits.
Qed.

Lemma wellFormedDate_numbers (s : string) :
  wellFormedDate s = true ->
  exists y m d, toNumber <$> split "-" s = [Fin y; Fin m; Fin d].
Proof.
  unfold wellFormedDate.
  destruct (split "-" s) as [|y [|m [|d [|? ?]]]]; try discriminate.
  rewrite !andb_true_iff. intros [[[[[_ Hy] _] Hm] _] Hd].
  destruct (toNumber_digits y Hy) as [ny Hny].
  destruct (toNumber_digits m Hm) as [nm Hnm].
  destruct (toNumber_digits d Hd) as [nd Hnd].
  exists ny, nm, nd. simpl. now rewrite Hny, Hnm, Hnd.
Qed.

Lemma wellFormedTime_numbers (s : string) :
  wellFormedTime s = true ->
  exists h m, toNumber <$> split ":" s = [Fin h; Fin m].
Proof.
  unfold wellFormedTime.
  destruct (split ":" s) as [|h [|m [|? ?]]]; try discriminate.
  rewrite !andb_true_iff. intros [[[_ Hh] _] Hm].
  destruct (toNumber_digits h Hh) as [nh Hnh].
  destruct (toNumber_digits m Hm) as [nm Hnm].
  exists nh, nm. simpl. now rewrite Hnh, Hnm.
Qed.

Lemma dateOnly_valid (s : string) :
  wellFormedDate s = true -> exists t, dateOnly s = DateOf t.
Proof.
  intros H. destruct (wellFormedDate_numbers s H) as (y & m & d & Hs).
  unfold dateOnly. rewrite Hs. simpl. eauto.
Qed.

Lemma combineDateAndTime_valid (date time : string) :
  wellFormedDate date = true -> wellFormedTime time = true ->
  exists t, combineDateAndTime date time = DateOf t.
Proof.
  intros Hd Ht.
  destruct (wellFormedDate_numbers date Hd) as (y & m & d & Hdate).
  destruct (wellFormedTime_numbers time Ht) as (h & mi & Htime).
  unfold combineDateAndTime. rewrite Hdate, Htime. simpl. eauto.
Qed.

(** The day number of the civil date of a day number is that day
    number. *)
Lemma MakeDay_civilFromDay (day : Z) :
  MakeDay (civilFromDay day).1.1 (civilFromDay day).1.2 (civilFromDay day).2
  = day.
Proof.
  unfold civilFromDay, MakeDay, dayFromYearMonth. cbn [fst snd].
  set (z := day + 719468).
  set (era := z / 146097).
  set (doe := z - era * 146097).
  assert (Hdoe : 0 <= doe < 146097).
  { subst doe era. pose proof (Z.div_mod z 146097 ltac:(lia)).
    pose proof (Z.mod_pos_bound z 146097 ltac:(lia)). lia. }
  set (yoe := (doe - doe / 1460 + doe / 36524 - doe / 146096) / 365).
  assert (Hyoe : 0 <= yoe <= 399
                 /\ 365 * yoe + yoe / 4 - yoe / 100 <= doe
                 /\ doe < 365 * (yoe + 1) + (yoe + 1) / 4 - (yoe + 1) / 100
                          + (if yoe =? 399 then 1 else 0)).
  { subst yoe. clearbody doe. clear -Hdoe.
    destruct (Z.eqb_spec
                ((doe - doe / 1460 + doe / 36524 - doe / 146096) / 365) 399);
      Z.div_mod_to_equations; lia. }
  clearbody yoe.
  set (doy := doe - (365 * yoe + yoe / 4 - yoe / 100)).
  assert (Hdoy : 0 <= doy <= 365).
  { subst doy. destruct (Z.eqb_spec yoe 399); Z.div_mod_to_equations; lia. }
  set (mp := (5 * doy + 2) / 153).
  assert (Hmp : 0 <= mp <= 11).
  { subst mp. clearbody doy. Z.div_mod_to_equations; lia. }
  clearbody mp.
  assert (Hmonth : forall m, 0 <= m <= 11 -> m / 12 = 0 /\ m mod 12 = m).
  { intros m Hm. split; [apply Z.div_small | apply Z.mod_small]; lia. }
  assert (Hera : (yoe + era * 400) / 400 = era).
  { rewrite Z.div_add by lia. rewrite Z.div_small; lia. }
  destruct (Z.ltb_spec mp 10) as [Hlt|Hge].
  - destruct (Hmonth (mp + 2) ltac:(lia)) as [-> ->].
    destruct (Z.ltb_spec (mp + 2) 2); [lia|].
    rewrite !Z.add_0_r, Hera.
    replace (mp + 2 - 2) with mp by lia.
    replace (yoe + era * 400 - era * 400) with yoe by lia.
    subst doy doe z. lia.
  - destruct (Hmonth (mp - 10) ltac:(lia)) as [-> ->].
    destruct (Z.ltb_spec (mp - 10) 2); [|lia].
    rewrite !Z.add_0_r.
    replace (yoe + era * 400 + 1 - 1) with (yoe + era * 400) by lia.
    rewrite Hera.
    replace (mp - 10 + 10) with mp by lia.
    replace (yoe + era * 400 - era * 400) with yoe by lia.
    subst doy doe z. lia.
Qed.

(** [todayDate] is the midnight that starts the day of [now], for every
    clock reading outside the years 0 to 99, which the [Date] constructor
    reads as 1900 to 1999. *)
Lemma todayDate_midnight (now : Z) :
  ~ 0 <= getFullYear now <= 99 ->
  todayDate now = DateOf (now / msPerDay * msPerDay).
Proof.
  intros Hyear. unfold todayDate, dateOfFields.
  destruct (Z.leb_spec 0 (getFullYear now));
    destruct (Z.leb_spec (getFullYear now) 99); simpl; try lia;
    unfold getFullYear, getMonth, getDate; rewrite MakeDay_civilFromDay;
    unfold MakeTime; f_equal; lia.
Qed.

(** C9.  On well-formed date and time strings and for a fixed current
    moment, the four checks (start date before today; end date before
    start date; start date equal to today with the start date-time already
    passed; same start and end date with the end date-time before the start
    date-time) are each evaluated, every failing check appends its own
    error in that order, and [isValid] holds exactly when no error was
    appended.  Today is the midnight that starts the day of the current
    moment. *)
Theorem validateEventTimes_checks now startDate endDate startTime endTime :
  wellFormedDate startDate = true ->
  wellFormedDate endDate = true ->
  wellFormedTime startTime = true ->
  wellFormedTime endTime = true ->
  exists start end_ startTimeObj endTimeObj today,
    dateOnly startDate = DateOf start
    /\ dateOnly endDate = DateOf end_
    /\ combineDateAndTime startDate startTime = DateOf startTimeObj
    /\ combineDateAndTime endDate endTime = DateOf endTimeObj
    /\ todayDate now = DateOf today
    /\ (~ 0 <= getFullYear now <= 99 -> today = now / msPerDay * msPerDay)
    /\ EventTimes.errors
         (validateEventTimes now startDate endDate startTime endTime)
       = ((if start <? today then [pastStartDate] else [])
          ++ (if end_ <? start then [endBeforeStart] else [])
          ++ (if (start =? today) && (startTimeObj <? now)
              then [pastStartTime] else [])
          ++ (if String.eqb startDate endDate && (endTimeObj <? startTimeObj)
              then [endTimeBeforeStartTime] else []))%list
    /\ (EventTimes.isValid
          (validateEventTimes now startDate endDate startTime endTime) = true
        <-> EventTimes.errors
              (validateEventTimes now startDate endDate startTime endTime)
            = []).
Proof.
  intros HsD HeD HsT HeT.
  destruct (dateOnly_valid startDate HsD) as [start Hstart].
  destruct (dateOnly_valid endDate HeD) as [end_ Hend].
  destruct (combineDateAndTime_valid startDate startTime HsD HsT)
    as [startTimeObj HstartT].
  destruct (combineDateAndTime_valid endDate endTime HeD HeT)
    as [endTimeObj HendT].
  exists start, end_, startTimeObj, endTimeObj.
  eexists. repeat (split; [eassumption || reflexivity|]).
  split.
  { intros Hyear. pose proof (todayDate_midnight now Hyear) as Htoday.
    unfold todayDate in Htoday. simpl in Htoday. now injection Htoday. }
  unfold validateEventTimes.
  rewrite Hstart, Hend, HstartT, HendT. unfold todayDate. simpl.
  destruct (start <? _); destruct (end_ <? start); destruct (start =? _);
    destruct (startTimeObj <? now); destruct (String.eqb startDate endDate);
    destruct (endTimeObj <? startTimeObj); simpl;
    (split; [reflexivity | split; (reflexivity || discriminate)]).
Qed.

(** A window that starts after today, whose end date is not before its
    start date and whose end date-time is not before its start date-time,
    is valid, with no error. *)
Theorem validateEventTimes_future_window
  now startDate endDate startTime endTime :
  Date_lt (todayDate now) (dateOnly startDate) = true ->
  Date_le (dateOnly startDate) (dateOnly endDate) = true ->
  Date_le (combineDateAndTime startDate startTime)
    (combineDateAndTime endDate endTime) = true ->
  validateEventTimes now startDate endDate startTime endTime
  = {| EventTimes.isValid := true; EventTimes.errors := [] |}.
Proof.
  unfold validateEventTimes.
  destruct (todayDate now) as [|today]; [discriminate|].
  destruct (dateOnly startDate) as [|start]; [discriminate|].
  destruct (dateOnly endDate) as [|end_]; [discriminate|].
  destruct (combineDateAndTime startDate startTime) as [|startTimeObj];
    [discriminate|].
  destruct (combineDateAndTime endDate endTime) as [|endTimeObj];
    [discriminate|].
  simpl. rewrite Z.ltb_lt, !Z.leb_le. intros Hfuture Hdates Htimes.
  replace (start <? today) with false by (symmetry; apply Z.ltb_ge; lia).
  replace (end_ <? start) with false by (symmetry; apply Z.ltb_ge; lia).
  replace (start =? today) with false by (symmetry; apply Z.eqb_neq; lia).
  replace (endTimeObj <? startTimeObj) with false
    by (symmetry; apply Z.ltb_ge; lia).
  now rewrite andb_false_r.
Qed.

(** ** The creation-time validator, continued *)

(** A wider buffer accepts at least as much: a file that is valid under a
    configuration is valid under every configuration whose
    [timeBufferMinutes] is not smaller. *)
Theorem validateFileCreationTime_wider_buffer
  metadata created eventStart eventEnd config1 config2 :
  createdAt metadata = Some (DateOf created) ->
  timeBufferMinutes config1 <= timeBufferMinutes config2 ->
  exists r1 r2,
    validateFileCreationTime metadata (DateOf eventStart) (DateOf eventEnd)
      (Some config1) = Return r1
    /\ validateFileCreationTime metadata (DateOf eventStart)
         (DateOf eventEnd) (Some config2) = Return r2
    /\ (TimeValidation.isValid r1 = true -> TimeValidation.isValid r2 = true).
Proof.
  intros Hcreated Hbuffer. unfold validateFileCreationTime.
  rewrite Hcreated. simpl. eexists. eexists.
  split; [reflexivity|]. split; [reflexivity|]. simpl.
  rewrite !andb_true_iff, !Z.leb_le. lia.
Qed.

(** The offset of an invalid file counts whole minutes only: it is 0
    exactly when the file lies less than one minute outside the buffered
    window, on either side. *)
Theorem validateFileCreationTime_offset_zero
  metadata created eventStart eventEnd config :
  createdAt metadata = Some (DateOf created) ->
  let buffer := timeBufferMinutes (configOrDefault config) * 60 * 1000 in
  let lower := eventStart - buffer in
  let upper := eventEnd + buffer in
  exists r,
    validateFileCreationTime metadata (DateOf eventStart) (DateOf eventEnd)
      config = Return r
    /\ (TimeValidation.timeOffset (TimeValidation.details r) = Some (Fin 0)
        <-> lower - 60000 < created < lower
            \/ (lower <= created /\ upper < created < upper + 60000)).
Proof.
  intros Hcreated buffer lower upper. unfold validateFileCreationTime.
  rewrite Hcreated. simpl. eexists. split; [reflexivity|]. simpl.
  fold buffer. fold lower. fold upper.
  destruct (Z.leb_spec lower created) as [Hlo|Hlo];
    destruct (Z.leb_spec created upper) as [Hup|Hup]; simpl;
    try (split; [discriminate | lia]);
    destruct (Z.ltb_spec created lower); try lia;
    (split;
     [ intros [= Hzero]; apply Z.div_small_iff in Hzero; lia
     | intros Hnear; unfold floorDiff; simpl; do 2 f_equal;
       apply Z.div_small; lia ]).
Qed.

(** ** The event time-range validator, continued *)

(** A start date with fewer than three parts between dashes (no day, no
    month, or the empty string) is not turned away: the date is invalid,
    every comparison with it is false, and the verdict is valid with no
    error, whatever the other arguments. *)
Theorem validateEventTimes_incomplete_start_date
  now startDate endDate startTime endTime :
  (length (split "-" startDate) < 3)%nat ->
  validateEventTimes now startDate endDate startTime endTime
  = {| EventTimes.isValid := true; EventTimes.errors := [] |}.
Proof.
  intros Hshort. unfold validateEventTimes.
  assert (Hpart : element (toNumber <$> split "-" startDate) 2 = NaN).
  { unfold element. rewrite list_lookup_fmap.
    rewrite (lookup_ge_None_2 (split "-" startDate) 2) by lia. reflexivity. }
  assert (Hstart : dateOnly startDate = InvalidDate).
  { unfold dateOnly, dateOfFields. rewrite Hpart.
    destruct (element _ 0); [reflexivity|].
    destruct (numOp _ _ _); reflexivity. }
  assert (HstartTime :
            combineDateAndTime startDate startTime = InvalidDate).
  { unfold combineDateAndTime, dateOfFields. rewrite Hpart.
    destruct (element _ 0); [reflexivity|].
    destruct (numOp _ _ _); reflexivity. }
  rewrite Hstart, HstartTime. simpl.
  destruct (dateOnly endDate), (combineDateAndTime endDate endTime); simpl;
    now rewrite ?andb_false_r.
Qed.

(** The same-day ordering of the times is checked only when the two date
    strings are equal: for a start date after today, two different
    spellings of one day give a valid verdict with no error, whatever the
    times are. *)
Theorem validateEventTimes_same_day_by_spelling
  now startDate endDate startTime endTime :
  Date_lt (todayDate now) (dateOnly startDate) = true ->
  sameTime (dateOnly startDate) (dateOnly endDate) = true ->
  startDate <> endDate ->
  validateEventTimes now startDate endDate startTime endTime
  = {| EventTimes.isValid := true; EventTimes.errors := [] |}.
Proof.
  unfold validateEventTimes.
  destruct (todayDate now) as [|today]; [discriminate|].
  destruct (dateOnly startDate) as [|start]; [discriminate|].
  destruct (dateOnly endDate) as [|end_]; [discriminate|].
  simpl. rewrite Z.ltb_lt, Z.eqb_eq. intros Hfuture <- Hspelling.
  replace (start <? today) with false by (symmetry; apply Z.ltb_ge; lia).
  rewrite Z.ltb_irrefl.
  replace (start =? today) with false by (symmetry; apply Z.eqb_neq; lia).
  destruct (String.eqb_spec startDate endDate); [contradiction|reflexivity].
Qed.

Lemma Date_lt_irrefl (d : Date) : Date_lt d d = false.
Proof. destruct d; simpl; [reflexivity | apply Z.ltb_irrefl]. Qed.

Lemma Date_lt_not_sameTime (a b : Date) :
  Date_lt a b = true -> sameTime a b = false.
Proof.
  destruct a, b; simpl; try discriminate.
  rewrite Z.ltb_lt, Z.eqb_neq. lia.
Qed.

(** The errors, check by check, for arbitrary arguments. *)
Lemma validateEventTimes_errors now startDate endDate startTime endTime :
  EventTimes.errors
    (validateEventTimes now startDate endDate startTime endTime)
  = ((if Date_lt (dateOnly startDate) (todayDate now)
      then [pastStartDate] else [])
     ++ (if Date_lt (dateOnly endDate) (dateOnly startDate)
         then [endBeforeStart] else [])
     ++ (if sameTime (dateOnly startDate) (todayDate now)
            && Date_lt (combineDateAndTime startDate startTime) (DateOf now)
         then [pastStartTime] else [])
     ++ (if String.eqb startDate endDate
            && Date_lt (combineDateAndTime endDate endTime)
                 (combineDateAndTime startDate startTime)
         then [endTimeBeforeStartTime] else []))%list.
Proof.
  unfold validateEventTimes.
  destruct (Date_lt (dateOnly startDate) (todayDate now));
    destruct (Date_lt (dateOnly endDate) (dateOnly startDate));
    destruct (sameTime (dateOnly startDate) (todayDate now));
    destruct (Date_lt (combineDateAndTime startDate startTime) (DateOf now));
    destruct (String.eqb startDate endDate);
    destruct (Date_lt (combineDateAndTime endDate endTime)
                (combineDateAndTime startDate startTime));
    reflexivity.
Qed.

(** Whatever the arguments, at most two of the four errors are given: the
    past-start-date and past-start-time errors exclude each other, and so
    do the end-before-start and end-time-before-start-time errors. *)
Theorem validateEventTimes_at_most_two_errors
  now startDate endDate startTime endTime :
  let errors :=
    EventTimes.errors
      (validateEventTimes now startDate endDate startTime endTime) in
  (length errors <= 2)%nat
  /\ ~ (pastStartDate ∈ errors /\ pastStartTime ∈ errors)
  /\ ~ (endBeforeStart ∈ errors /\ endTimeBeforeStartTime ∈ errors).
Proof.
  intros errors. subst errors. rewrite validateEventTimes_errors.
  pose proof (Date_lt_not_sameTime (dateOnly startDate) (todayDate now))
    as Hdate.
  assert (Hday : String.eqb startDate endDate = true ->
                 Date_lt (dateOnly endDate) (dateOnly startDate) = false).
  { intros Heq. apply String.eqb_eq in Heq. subst endDate.
    apply Date_lt_irrefl. }
  destruct (Date_lt (dateOnly startDate) (todayDate now));
    [rewrite (Hdate eq_refl)|]; clear Hdate;
    (destruct (String.eqb startDate endDate);
     [rewrite (Hday eq_refl)|]; clear Hday);
    simpl;
    repeat match goal with
      | |- context [if ?b then _ else _] => destruct b; simpl
      end;
    (split; [simpl; lia|]);
    unfold pastStartDate, pastStartTime, endBeforeStart,
      endTimeBeforeStartTime;
    rewrite ?elem_of_cons, ?elem_of_nil;
    (split; intros [H1 H2];
     repeat match goal with
       | H : _ \/ _ |- _ => destruct H
       | H : False |- _ => destruct H
       | H : _ = _ |- _ => discriminate H
       end).
Qed.

(** ** The upload controller *)

Section UploadControllerProperties.

Variable createError : list Uploads.Document -> Uploads.Document -> option string.
Variable saveError : Uploads.Event -> list Uploads.Document -> option string.
Variable find :
  string -> Number Q -> Z -> result (option (list Uploads.Document)).
Variable countDocuments : string -> result Z.
Variable documentUrl : Uploads.Document -> option string.
Variable cloudinary_url : option string -> string.
Variable stringToNumber : string -> Number Q.

(** The loop creates the documents of a prefix of the files, in order, and
    stops with no error only at the end of the files. *)
Lemma uploadEach_prefix ev files collection :
  exists k,
    (k <= length files)%nat
    /\ (uploadEach createError saveError (Some ev) files collection).1
       = (collection ++ (documentOf ev <$> take k files))%list
    /\ ((uploadEach createError saveError (Some ev) files collection).2 = None
        -> k = length files).
Proof.
  revert collection. induction files as [|file rest IH]; intros collection.
  - exists 0%nat. simpl. rewrite app_nil_r. auto.
  - simpl. destruct (createError collection (documentOf ev file)).
    + exists 0%nat. simpl. rewrite app_nil_r.
      repeat split; [lia | discriminate].
    + destruct (saveError ev (collection ++ [documentOf ev file])).
      * exists 1%nat. simpl. rewrite ?take_0. simpl.
        repeat split; [lia | discriminate].
      * destruct (IH (collection ++ [documentOf ev file])%list)
          as (k & Hk & Hcoll & Hdone).
        exists (S k). simpl. rewrite Hcoll, <- app_assoc. simpl.
        repeat split; [lia | auto].
Qed.

(** [uploadFile] never removes a document and never undoes what it
    created: the collection it leaves is the one it found followed by the
    documents of the first [k] files, in order, for some [k]; a response of
    200 means that every file has its document, and the only other response
    is 500. *)
Theorem uploadFile_keeps_created_documents ev files collection :
  let req :=
    {| Uploads.validatedEvent := Some ev;
       Uploads.uploadedFiles := Some files |} in
  exists k,
    (k <= length files)%nat
    /\ (uploadFile createError saveError req collection).1
       = (collection ++ (documentOf ev <$> take k files))%list
    /\ (Uploads.status (uploadFile createError saveError req collection).2
        = 200 -> k = length files)
    /\ (Uploads.status (uploadFile createError saveError req collection).2
        = 200
        \/ Uploads.status (uploadFile createError saveError req collection).2
           = 500).
Proof.
  intros req. unfold uploadFile. simpl.
  destruct (uploadEach_prefix ev files collection) as (k & Hk & Hcoll & Hdone).
  exists k.
  destruct (uploadEach createError saveError (Some ev) files collection)
    as [collection' [msg|]]; simpl in *;
    repeat split; auto; discriminate.
Qed.

(** With no files to iterate ([uploadedFiles] missing) the response is 500;
    with files and no event it is 500 as well; with an empty list of files
    it is 200, even if the event is missing.  In the three cases the
    collection is left as it was. *)
Theorem uploadFile_missing_inputs ev files collection :
  uploadFile createError saveError
    {| Uploads.validatedEvent := ev; Uploads.uploadedFiles := None |}
    collection
  = (collection,
     {| Uploads.status := 500;
        Uploads.body := Uploads.Message ("failed: " +:+ notIterableMessage) |})
  /\ (files <> [] ->
      uploadFile createError saveError
        {| Uploads.validatedEvent := None;
           Uploads.uploadedFiles := Some files |} collection
      = (collection,
         {| Uploads.status := 500;
            Uploads.body := Uploads.Message ("failed: " +:+ noEventMessage) |}))
  /\ uploadFile createError saveError
       {| Uploads.validatedEvent := ev; Uploads.uploadedFiles := Some [] |}
       collection
     = (collection,
        {| Uploads.status := 200;
           Uploads.body := Uploads.Message "Upload Successfull" |}).
Proof.
  repeat split; try reflexivity.
  intros Hfiles. destruct files as [|file rest]; [contradiction|reflexivity].
Qed.

(** [getAllUploads] never answers 200 and never sends an image: it
    answers 404 with the no-images message exactly when the query resolves
    to an array, empty or not, and 500 in every other case. *)
Theorem getAllUploads_never_succeeds accessToken queryPage :
  let response :=
    getAllUploads find countDocuments documentUrl cloudinary_url
      stringToNumber accessToken queryPage in
  let query :=
    find accessToken (skipOf stringToNumber (pageOf queryPage) 20) 20 in
  Uploads.status response <> 200
  /\ (exists message, Uploads.body response = Uploads.Message message)
  /\ ((exists images, query = Return (Some images))
      <-> response
          = {| Uploads.status := 404;
               Uploads.body := Uploads.Message "No images uploaded yet!!" |})
  /\ ((forall images, query <> Return (Some images))
      <-> Uploads.status response = 500).
Proof.
  unfold getAllUploads, getAllUploadsBlock. simpl.
  destruct (find accessToken (skipOf stringToNumber (pageOf queryPage) 20) 20)
    as [msg|[images|]]; simpl;
    (split; [discriminate|]); (split; [eauto|]); split; split;
    try discriminate; try reflexivity; eauto;
    try (intros [images' [=]]);
    try (intros H; exfalso; now apply (H images)).
Qed.

End UploadControllerProperties.

(** ** Instances and counterexamples *)

(** The claimed set of four types is not the default one: IMG_ is allowed
    as well. *)
Lemma DEFAULT_allowedMimeTypes_not_four :
  (list_to_set (allowedMimeTypes DEFAULT_VALIDATION_CONFIG) : gset string)
  <> {["image/jpeg"; "image/png"; "image/heic"; "image/heif"]}.
Proof.
  intros H.
  assert (Hin : "IMG_" ∈ (list_to_set (allowedMimeTypes DEFAULT_VALIDATION_CONFIG) : gset string))
    by (simpl; set_solver).
  rewrite H in Hin. set_solver.
Qed.

(** An upload of zero bytes has all four required properties and is
    turned away with the input error all the same. *)
Lemma extractFileMetadata_rejects_empty_upload :
  ~ missingProperty emptyUpload
  /\ extractFileMetadata throwingReader sampleParse sampleNow showFixed2
       showWhole (Some emptyUpload) None
     = Throw "Invalid file object - missing required properties".
Proof.
  split; [|reflexivity].
  unfold missingProperty. simpl. intuition discriminate.
Qed.

(** The first date field does not parse, the second does: it gives
    [createdAt], and the last-modified date of the file is not used. *)
Lemma extractFileMetadata_first_exif_date_photo :
  exists m,
    extractFileMetadata (readerOf photoTags) sampleParse sampleNow showFixed2
      showWhole (Some photo) None = Return m
    /\ createdAt m = Some (DateOf (utc 2024 6 1 10 0))
    /\ possibleCreationSources m = ["EXIF"].
Proof.
  apply (extractFileMetadata_first_exif_date (readerOf photoTags) sampleParse
           sampleNow showFixed2 showWhole photo None
           "IMG_0001.jpg" "image/jpeg" 2048 [Byte.x01] photoTags
           ["DateTimeOriginal"] "CreateDate" ["ModifyDate"; "DateTime"]
           (tagOf "2024-06-01T10:00:00") (utc 2024 6 1 10 0));
    try reflexivity.
  intros f tag' Hf. apply list_elem_of_singleton in Hf. subst f.
  vm_compute. intros [= <-]. reflexivity.
Defined.

(** Reading succeeds and finds a camera tag and no date: no date field is
    usable, and no no-EXIF-data warning is given. *)
Lemma extractFileMetadata_no_warning_without_dates :
  exists m,
    extractFileMetadata (readerOf cameraOnlyTags) sampleParse sampleNow
      showFixed2 showWhole (Some bareUpload) None = Return m
    /\ (forall field,
          field ∈ dateFields -> exifDate sampleParse cameraOnlyTags field = None)
    /\ validationWarnings m = [currentTimeMessage]
    /\ noExifMessage ∉ validationWarnings m.
Proof.
  eexists. split; [vm_compute; reflexivity|]. split; [|split].
  - intros field Hfield. unfold dateFields in Hfield.
    repeat (apply elem_of_cons in Hfield as [->|Hfield]; [reflexivity|]).
    inversion Hfield.
  - reflexivity.
  - simpl. rewrite list_elem_of_singleton. discriminate.
Qed.

(** The reader throws: the extractor returns, with the no-EXIF-data
    warning. *)
Lemma extractFileMetadata_no_exif_warning_thrown :
  exists m,
    extractFileMetadata throwingReader sampleParse sampleNow showFixed2
      showWhole (Some bareUpload) None = Return m
    /\ (throwingReader [Byte.x01] = None ->
        noExifMessage ∈ validationWarnings m)
    /\ (forall tags, throwingReader [Byte.x01] = Some tags ->
                     noExifMessage ∉ validationWarnings m).
Proof.
  apply (extractFileMetadata_no_exif_warning throwingReader sampleParse
           sampleNow showFixed2 showWhole bareUpload None
           "IMG_0001.jpg" "image/jpeg" 2048 [Byte.x01]);
    reflexivity.
Defined.

(** The metadata carries a quality tag and no date: [qualityScore] stays
    null. *)
Lemma extractFileMetadata_quality_without_date :
  exists m,
    extractFileMetadata (readerOf qualityOnlyTags) sampleParse sampleNow
      showFixed2 showWhole (Some bareUpload) None = Return m
    /\ qualityOnlyTags !! "Quality" = Some (tagOf "85")
    /\ qualityScore m = None.
Proof. eexists. split; [vm_compute; reflexivity|]. split; reflexivity. Qed.

(** The photo has a creation date that parses and a quality of 85: the
    score is 85/100. *)
Lemma extractFileMetadata_qualityScore_photo :
  exists m,
    extractFileMetadata (readerOf photoTags) sampleParse sampleNow showFixed2
      showWhole (Some photo) None = Return m
    /\ ((exists field d,
           field ∈ dateFields /\ exifDate sampleParse photoTags field = Some d) ->
        qualityScore m = Some (divideBy100 (parseInt "85")))
    /\ ((forall field,
           field ∈ dateFields -> exifDate sampleParse photoTags field = None) ->
        qualityScore m = None).
Proof.
  apply (extractFileMetadata_qualityScore (readerOf photoTags) sampleParse
           sampleNow showFixed2 showWhole photo None
           "IMG_0001.jpg" "image/jpeg" 2048 [Byte.x01] photoTags
           (tagOf "85"));
    reflexivity.
Defined.

(** No embedded metadata and no last-modified date, under a configuration
    that requires original photos: the current time, and an error. *)
Lemma extractFileMetadata_fallback_strict :
  exists m,
    extractFileMetadata throwingReader sampleParse sampleNow showFixed2
      showWhole (Some bareUpload) (Some strictConfig) = Return m
    /\ createdAt m = Some (DateOf sampleNow)
    /\ possibleCreationSources m = ["current"]
    /\ validationErrors m = [cannotVerifyMessage]
    /\ validationWarnings m = [noExifMessage].
Proof.
  apply (extractFileMetadata_fallback throwingReader sampleParse sampleNow
           showFixed2 showWhole bareUpload (Some strictConfig)
           "IMG_0001.jpg" "image/jpeg" 2048 [Byte.x01]);
    [reflexivity | right; left; reflexivity].
Defined.

(** The metadata returned for the photo has one provenance tag, "EXIF". *)
Lemma extractFileMetadata_one_creation_source_photo :
  extractFileMetadata (readerOf photoTags) sampleParse sampleNow showFixed2
    showWhole (Some photo) None = Return photoMetadata
  /\ is_Some (createdAt photoMetadata)
  /\ exists source,
       possibleCreationSources photoMetadata = [source]
       /\ (source = "EXIF" \/ source = "lastModifiedDate"
           \/ source = "current").
Proof.
  split; [reflexivity|].
  apply (extractFileMetadata_one_creation_source (readerOf photoTags)
           sampleParse sampleNow showFixed2 showWhole (Some photo) None).
  reflexivity.
Defined.

(** An event from 09:00 to 17:00 with the default buffer of 60 minutes: a
    file of 08:01 is inside the buffered window. *)
Lemma validateFileCreationTime_isValid_0801 :
  exists r,
    validateFileCreationTime (metadataAt 8 1) (DateOf (utc 2024 6 1 9 0))
      (DateOf (utc 2024 6 1 17 0)) None = Return r
    /\ TimeValidation.isValid r = true.
Proof.
  destruct (validateFileCreationTime_isValid (metadataAt 8 1)
              (utc 2024 6 1 8 1) (utc 2024 6 1 9 0) (utc 2024 6 1 17 0)
              None eq_refl) as (r & Hr & Hvalid).
  exists r. split; [exact Hr|].
  apply Hvalid. vm_compute. split; discriminate.
Defined.

(** The same event: a file of 07:59 is one minute before the buffered
    window. *)
Lemma validateFileCreationTime_timeOffset_0759 :
  exists r,
    validateFileCreationTime (metadataAt 7 59) (DateOf (utc 2024 6 1 9 0))
      (DateOf (utc 2024 6 1 17 0)) None = Return r
    /\ TimeValidation.isValid r = false
    /\ TimeValidation.timeOffset (TimeValidation.details r) = Some (Fin 1)
    /\ TimeValidation.message (TimeValidation.details r)
       = "File was created 1 minutes before the allowed time window".
Proof.
  destruct (validateFileCreationTime_timeOffset (metadataAt 7 59)
              (utc 2024 6 1 7 59) (utc 2024 6 1 9 0) (utc 2024 6 1 17 0)
              None eq_refl) as (r & Hr & _ & Hinvalid).
  exists r. split; [exact Hr|].
  assert (Hfalse : TimeValidation.isValid r = false).
  { vm_compute in Hr. injection Hr as <-. reflexivity. }
  split; [exact Hfalse|].
  destruct (Hinvalid Hfalse) as [(_ & _ & Hoffset & Hmessage)
                                |(Hlower & _)].
  - split; [exact Hoffset | exact Hmessage].
  - exfalso. vm_compute in Hlower. apply Hlower. reflexivity.
Defined.

(** At noon of 1 June 2024, an event of that day from 11:59 to 11:00 fails
    two checks at once. *)
Lemma validateEventTimes_checks_two_errors :
  EventTimes.errors
    (validateEventTimes sampleNow "2024-06-01" "2024-06-01" "11:59" "11:00")
  = [pastStartTime; endTimeBeforeStartTime]
  /\ EventTimes.isValid
       (validateEventTimes sampleNow "2024-06-01" "2024-06-01" "11:59" "11:00")
     = false.
Proof.
  destruct (validateEventTimes_checks sampleNow "2024-06-01" "2024-06-01"
              "11:59" "11:00" eq_refl eq_refl eq_refl eq_refl)
    as (start & end_ & startTimeObj & endTimeObj & today
        & H1 & H2 & H3 & H4 & H5 & _ & Herrors & Hvalid).
  vm_compute in H1, H2, H3, H4, H5.
  injection H1 as <-. injection H2 as <-. injection H3 as <-.
  injection H4 as <-. injection H5 as <-.
  assert (He : EventTimes.errors
                 (validateEventTimes sampleNow "2024-06-01" "2024-06-01"
                    "11:59" "11:00")
               = [pastStartTime; endTimeBeforeStartTime])
    by (rewrite Herrors; reflexivity).
  split; [exact He|].
  destruct (EventTimes.isValid _) eqn:E; [|reflexivity].
  destruct Hvalid as [Hempty _]. specialize (Hempty eq_refl).
  rewrite He in Hempty. discriminate Hempty.
Defined.

(** At noon of 1 June 2024, today is the midnight of that day. *)
Lemma todayDate_midnight_sample :
  todayDate sampleNow = DateOf (utc 2024 6 1 0 0).
Proof.
  rewrite (todayDate_midnight sampleNow); [reflexivity|].
  vm_compute. intros [_ H]. apply H. reflexivity.
Defined.

(** A camera tag is copied although no date was found. *)
Lemma extractFileMetadata_camera_tags_photo :
  exists m,
    extractFileMetadata (readerOf cameraOnlyTags) sampleParse sampleNow
      showFixed2 showWhole (Some bareUpload) None = Return m
    /\ cameraMake m = Some "Canon"
    /\ cameraModel m = None
    /\ iso m = None.
Proof.
  apply (extractFileMetadata_camera_tags (readerOf cameraOnlyTags)
           sampleParse sampleNow showFixed2 showWhole bareUpload None
           "IMG_0001.jpg" "image/jpeg" 2048 [Byte.x01] cameraOnlyTags);
    reflexivity.
Defined.

(** The file of 08:01 is valid, and the message names its provenance. *)
Lemma validateFileCreationTime_success_message_0801 :
  exists r,
    validateFileCreationTime (metadataAt 8 1) (DateOf (utc 2024 6 1 9 0))
      (DateOf (utc 2024 6 1 17 0)) None = Return r
    /\ TimeValidation.creationSource (TimeValidation.details r) = Some "EXIF"
    /\ TimeValidation.message (TimeValidation.details r)
       = "File creation time is valid (detected via EXIF)".
Proof.
  eexists. split; [vm_compute; reflexivity|].
  match goal with
  | |- context [TimeValidation.details ?r] =>
      destruct (validateFileCreationTime_success_message (metadataAt 8 1)
                  (DateOf (utc 2024 6 1 9 0)) (DateOf (utc 2024 6 1 17 0))
                  None r eq_refl) as [Hsource Hmessage]
  end.
  split; [exact Hsource | exact (Hmessage eq_refl)].
Defined.

(** At noon of 1 June 2024, an event from 2 June 09:00 to 3 June 17:00 is
    valid. *)
Lemma validateEventTimes_future_window_sample :
  validateEventTimes sampleNow "2024-06-02" "2024-06-03" "09:00" "17:00"
  = {| EventTimes.isValid := true; EventTimes.errors := [] |}.
Proof.
  apply (validateEventTimes_future_window sampleNow "2024-06-02" "2024-06-03"
           "09:00" "17:00"); reflexivity.
Defined.

(** A document of twenty megabytes under the default configuration: the
    size error, then the type error. *)
Lemma extractFileMetadata_errors_pdf :
  exists m,
    extractFileMetadata throwingReader sampleParse sampleNow showFixed2
      showWhole (Some pdfUpload) None = Return m
    /\ validationErrors m
       = ["File size (20.00MB) exceeds maximum allowed size of 10MB";
          "File type application/pdf is not allowed. Allowed types: image/jpeg, image/png, IMG_, image/heic, image/heif"].
Proof.
  destruct (extractFileMetadata_errors throwingReader sampleParse sampleNow
              showFixed2 showWhole pdfUpload None "minutes.pdf"
              "application/pdf" 20971520 [Byte.x01] eq_refl)
    as (m & Hm & Herrors & _).
  exists m. split; [exact Hm|].
  rewrite Herrors. vm_compute in Hm. injection Hm as <-. reflexivity.
Defined.

(** An image the reader cannot read, with no last-modified date: both
    warnings. *)
Lemma extractFileMetadata_warnings_bare :
  exists m,
    extractFileMetadata throwingReader sampleParse sampleNow showFixed2
      showWhole (Some bareUpload) None = Return m
    /\ validationWarnings m = [noExifMessage; currentTimeMessage].
Proof.
  apply (extractFileMetadata_warnings throwingReader sampleParse sampleNow
           showFixed2 showWhole bareUpload None
           "IMG_0001.jpg" "image/jpeg" 2048 [Byte.x01]).
  reflexivity.
Defined.

(** The document is extracted alike with a reader that throws and with one
    that finds the tags of the photo. *)
Lemma extractFileMetadata_non_image_pdf :
  exists m,
    extractFileMetadata throwingReader sampleParse sampleNow showFixed2
      showWhole (Some pdfUpload) None = Return m
    /\ extractFileMetadata (readerOf photoTags) (fun _ => Some 0) sampleNow
         showFixed2 showWhole (Some pdfUpload) None = Return m
    /\ qualityScore m = None
    /\ cameraMake m = None /\ cameraModel m = None /\ iso m = None
    /\ noExifMessage ∉ validationWarnings m.
Proof.
  apply (extractFileMetadata_non_image throwingReader sampleParse sampleNow
           showFixed2 showWhole pdfUpload None "minutes.pdf"
           "application/pdf" 20971520 [Byte.x01]
           (readerOf photoTags) (fun _ => Some 0));
    reflexivity.
Defined.

(** The photo is extracted alike under the default configuration and under
    one with other image limits. *)
Lemma extractFileMetadata_unenforced_limits_photo :
  extractFileMetadata (readerOf photoTags) sampleParse sampleNow showFixed2
    showWhole (Some photo) (Some DEFAULT_VALIDATION_CONFIG)
  = extractFileMetadata (readerOf photoTags) sampleParse sampleNow showFixed2
      showWhole (Some photo) (Some wideConfig).
Proof.
  apply (extractFileMetadata_unenforced_limits (readerOf photoTags)
           sampleParse sampleNow showFixed2 showWhole (Some photo)
           DEFAULT_VALIDATION_CONFIG wideConfig);
    reflexivity.
Defined.

(** The metadata of the photo goes through the creation-time validator. *)
Lemma validateFileCreationTime_after_extract_photo :
  exists r,
    validateFileCreationTime photoMetadata (DateOf (utc 2024 6 1 9 0))
      (DateOf (utc 2024 6 1 17 0)) None = Return r
    /\ TimeValidation.createdAt r = DateOf (utc 2024 6 1 10 0)
    /\ TimeValidation.creationSource (TimeValidation.details r) = Some "EXIF".
Proof.
  destruct (validateFileCreationTime_after_extract (readerOf photoTags)
              sampleParse sampleNow showFixed2 showWhole (Some photo) None
              photoMetadata (utc 2024 6 1 9 0) (utc 2024 6 1 17 0) None
              eq_refl)
    as (r & created & source & Hr & Hcreated & Hsame & Hsources & Hsource).
  - intros f [= <-]. discriminate.
  - exists r. split; [exact Hr|].
    injection Hcreated as <-. injection Hsources as <-. auto.
Defined.

(** An image with no metadata and no last-modified date, uploaded at noon
    during an event from 09:00 to 17:00, is valid by the clock. *)
Lemma validateFileCreationTime_of_clock_fallback_noon :
  exists m r,
    extractFileMetadata throwingReader sampleParse sampleNow showFixed2
      showWhole (Some bareUpload) None = Return m
    /\ validateFileCreationTime m (DateOf (utc 2024 6 1 9 0))
         (DateOf (utc 2024 6 1 17 0)) None = Return r
    /\ TimeValidation.creationSource (TimeValidation.details r)
       = Some "current"
    /\ TimeValidation.isValid r = true.
Proof.
  destruct (validateFileCreationTime_of_clock_fallback throwingReader
              sampleParse sampleNow showFixed2 showWhole bareUpload None
              "IMG_0001.jpg" "image/jpeg" 2048 [Byte.x01]
              (utc 2024 6 1 9 0) (utc 2024 6 1 17 0) None eq_refl eq_refl)
    as (m & r & Hm & Hr & Hsource & Hvalid).
  exists m, r. repeat split; auto.
  apply Hvalid. vm_compute. split; discriminate.
Defined.

(** The invalid last-modified date becomes [createdAt], and the validator
    throws. *)
Lemma validateFileCreationTime_of_invalid_lastModified_sample :
  exists m,
    extractFileMetadata throwingReader sampleParse sampleNow showFixed2
      showWhole (Some brokenDateUpload) None = Return m
    /\ createdAt m = Some InvalidDate
    /\ possibleCreationSources m = ["lastModifiedDate"]
    /\ forall eventStart eventEnd config',
         exists msg,
           validateFileCreationTime m eventStart eventEnd config'
           = Throw msg.
Proof.
  apply (validateFileCreationTime_of_invalid_lastModified throwingReader
           sampleParse sampleNow showFixed2 showWhole brokenDateUpload None
           "IMG_0001.jpg" "image/jpeg" 2048 [Byte.x01]);
    reflexivity.
Defined.

(** The file of 07:30 is invalid with the default buffer of one hour and
    valid with a buffer of two hours. *)
Lemma validateFileCreationTime_wider_buffer_0730 :
  exists r1 r2,
    validateFileCreationTime (metadataAt 7 30) (DateOf (utc 2024 6 1 9 0))
      (DateOf (utc 2024 6 1 17 0)) (Some DEFAULT_VALIDATION_CONFIG)
    = Return r1
    /\ validateFileCreationTime (metadataAt 7 30) (DateOf (utc 2024 6 1 9 0))
         (DateOf (utc 2024 6 1 17 0)) (Some wideConfig) = Return r2
    /\ (TimeValidation.isValid r1 = true -> TimeValidation.isValid r2 = true)
    /\ TimeValidation.isValid r2 = true.
Proof.
  destruct (validateFileCreationTime_wider_buffer (metadataAt 7 30)
              (utc 2024 6 1 7 30) (utc 2024 6 1 9 0) (utc 2024 6 1 17 0)
              DEFAULT_VALIDATION_CONFIG wideConfig eq_refl)
    as (r1 & r2 & H1 & H2 & Hwider).
  - vm_compute. discriminate.
  - exists r1, r2. repeat split; auto.
    vm_compute in H2. injection H2 as <-. reflexivity.
Defined.

(** One millisecond before 08:00, the lower bound of the buffered window:
    invalid, zero minutes before. *)
Lemma validateFileCreationTime_offset_zero_sample :
  exists r,
    validateFileCreationTime (metadataOf (utc 2024 6 1 8 0 - 1))
      (DateOf (utc 2024 6 1 9 0)) (DateOf (utc 2024 6 1 17 0)) None
    = Return r
    /\ TimeValidation.isValid r = false
    /\ TimeValidation.timeOffset (TimeValidation.details r) = Some (Fin 0)
    /\ TimeValidation.message (TimeValidation.details r)
       = "File was created 0 minutes before the allowed time window".
Proof.
  destruct (validateFileCreationTime_offset_zero
              (metadataOf (utc 2024 6 1 8 0 - 1)) (utc 2024 6 1 8 0 - 1)
              (utc 2024 6 1 9 0) (utc 2024 6 1 17 0) None eq_refl)
    as (r & Hr & Hzero).
  exists r. split; [exact Hr|]. split; [|split].
  - vm_compute in Hr. injection Hr as <-. reflexivity.
  - apply Hzero. left. vm_compute. split; reflexivity.
  - vm_compute in Hr. injection Hr as <-. reflexivity.
Defined.

(** A start date with no day is accepted. *)
Lemma validateEventTimes_incomplete_start_date_sample :
  validateEventTimes sampleNow "2024-06" "2024-06-01" "09:00" "08:00"
  = {| EventTimes.isValid := true; EventTimes.errors := [] |}.
Proof.
  apply (validateEventTimes_incomplete_start_date sampleNow "2024-06"
           "2024-06-01" "09:00" "08:00").
  vm_compute. lia.
Defined.

(** 31 June and 1 July are one day: an event from 10:00 to 09:00 of that
    day is accepted under the two spellings. *)
Lemma validateEventTimes_same_day_by_spelling_sample :
  validateEventTimes sampleNow "2024-06-31" "2024-07-01" "10:00" "09:00"
  = {| EventTimes.isValid := true; EventTimes.errors := [] |}.
Proof.
  apply (validateEventTimes_same_day_by_spelling sampleNow "2024-06-31"
           "2024-07-01" "10:00" "09:00");
    [reflexivity | reflexivity | discriminate].
Defined.

(** Three files, the event fails to save after the second document: the
    answer is 500 and the two documents stay. *)
Lemma uploadFile_keeps_created_documents_sample :
  uploadFile acceptAll saveFailsAtTwo
    {| Uploads.validatedEvent := Some sampleEvent;
       Uploads.uploadedFiles :=
         Some [sampleFile "a.jpg"; sampleFile "b.jpg"; sampleFile "c.jpg"] |}
    []
  = ([documentOf sampleEvent (sampleFile "a.jpg");
      documentOf sampleEvent (sampleFile "b.jpg")],
     {| Uploads.status := 500;
        Uploads.body := Uploads.Message "failed: connection lost" |})
  /\ exists k,
       (k <= 3)%nat
       /\ (uploadFile acceptAll saveFailsAtTwo
             {| Uploads.validatedEvent := Some sampleEvent;
                Uploads.uploadedFiles :=
                  Some [sampleFile "a.jpg"; sampleFile "b.jpg";
                        sampleFile "c.jpg"] |} []).1
          = documentOf sampleEvent
              <$> take k [sampleFile "a.jpg"; sampleFile "b.jpg";
                          sampleFile "c.jpg"].
Proof.
  split; [reflexivity|].
  destruct (uploadFile_keeps_created_documents acceptAll saveFailsAtTwo
              sampleEvent
              [sampleFile "a.jpg"; sampleFile "b.jpg"; sampleFile "c.jpg"] [])
    as (k & Hk & Hcollection & _).
  exists k. split; [exact Hk | exact Hcollection].
Defined.

(** The query finds a stored document, and the answer is 404 all the
    same. *)
Lemma getAllUploads_never_succeeds_sample :
  getAllUploads findOne (fun _ => Return 1) (fun _ => None)
    (fun _ => "https://res.cloudinary.com/demo/a.jpg") digitsToNumber
    "party" (Some "1")
  = {| Uploads.status := 404;
       Uploads.body := Uploads.Message "No images uploaded yet!!" |}.
Proof.
  apply (getAllUploads_never_succeeds findOne (fun _ => Return 1)
           (fun _ => None)
           (fun _ => "https://res.cloudinary.com/demo/a.jpg") digitsToNumber
           "party" (Some "1")).
  eexists. reflexivity.
Defined.
